(** * srt-timestamp-adjuster: the timestamp shifter, embedded and verified

    A shallow embedding of [srt_timestamp_adjuster_gui.py]:
    [generate_new_srt_file], [increment_line] and the part of [main] that
    runs after the arguments are parsed, together with the pieces of the
    Python runtime they call ([in], [str.split], [str.strip],
    [datetime.strptime], [datetime.strftime], [timedelta] arithmetic,
    unpacking of a generator, [open]).

    Conventions.
    - A Python [str] is a [string]; a character is a code point below 256.
    - A Python [int] is a [Z].
    - A raised exception is the [Raise] branch of [result]; the message of
      an exception is kept as the data it is formatted from.
    - The file system is a finite map from paths to the content of each
      file.  Files hold 8-bit text: every file decodes, one character for
      each byte, so no [UnicodeDecodeError] arises; a file opened with
      ['r'] is read with universal newlines ([\r\n] and [\r] arrive as
      [\n]), and a file opened with ['w'] is written as on a POSIX system,
      where [os.linesep] is [\n].  Every path can be opened for writing.
    - Time formats are covered for the directives [%H], [%M], [%S], [%f]
      and [%%], whitespace and literal characters from 1 to 127.  A
      directive [strptime] refuses is answered with its [ValueError]
      ([BadDirective]); a format with a directive, flag or literal that
      is not covered here is answered with [OutsideFragment], which
      stands for no answer, not for an exception of the program.
    - Console output ([print]) is not part of the model. *)

From Stdlib Require Import ZArith Ascii String List Bool Lia.
From stdpp Require Import gmap strings pretty.

Local Open Scope Z_scope.

(** ** Exceptions and results *)

(** The exceptions the program can raise.  The messages of the Python
    exceptions are kept as the data they are built from. *)
Inductive exn : Type :=
  | NoMatch (data_string format : string)
    (* ValueError: time data %r does not match format %r *)
  | UnconvertedData (rest : string)
    (* ValueError: unconverted data remains: %s *)
  | SecondOutOfRange
    (* ValueError: second must be in 0..59 *)
  | StrayPercent (format : string)
    (* ValueError: stray % in format %r *)
  | BadDirective (format : string)
    (* ValueError: %r is a bad directive in format %r *)
  | TooManyValues
    (* ValueError: too many values to unpack (expected 2) *)
  | NotEnoughValues (got : nat)
    (* ValueError: not enough values to unpack (expected 2, got n) *)
  | OverflowError
    (* OverflowError: date value out of range / days too large *)
  | PatternError
    (* re.error: redefinition of group name *)
  | FileNotFoundError (path : string)
  | OutsideFragment (format : string)
    (* no answer: the format uses a directive, flag or literal that this
       development does not cover *)
  | ParseFailure (cause : exn).
    (* ValueError('Failed to parse SRT file: incorrect format') from cause *)

(** [isinstance(e, ValueError)] *)
Definition is_ValueError (e : exn) : bool :=
  match e with
  | NoMatch _ _ | UnconvertedData _ | SecondOutOfRange | StrayPercent _
  | BadDirective _ | TooManyValues | NotEnoughValues _ | ParseFailure _ => true
  | OverflowError | PatternError | FileNotFoundError _
  | OutsideFragment _ => false
  end.

Inductive result (A : Type) : Type :=
  | Ok (a : A)
  | Raise (e : exn).
Arguments Ok {A} a.
Arguments Raise {A} e.

Global Instance result_bind : MBind result := fun A B k r =>
  match r with
  | Ok a => k a
  | Raise e => Raise e
  end.

(** ** Python strings *)

Module Str.

Definition code (c : ascii) : Z := Z.of_N (N_of_ascii c).

(** [c.isspace()], which is also the class [\s] of [re] on [str]. *)
Definition isspace (c : ascii) : bool :=
  let n := code c in
  ((9 <=? n) && (n <=? 13)) || ((28 <=? n) && (n <=? 32))
  || (n =? 133) || (n =? 160).

(** [c.isdecimal()], the class [\d] of [re] on [str]; below 256 it is
    the class [[0-9]]. *)
Definition isdigit (c : ascii) : bool :=
  let n := code c in (48 <=? n) && (n <=? 57).

Definition lower (c : ascii) : ascii :=
  let n := N_of_ascii c in
  if ((65 <=? n) && (n <=? 90))%N then ascii_of_N (n + 32) else c.

Definition is_empty (s : string) : bool :=
  match s with EmptyString => true | String _ _ => false end.

Fixpoint lstrip (s : string) : string :=
  match s with
  | EmptyString => EmptyString
  | String c s' => if isspace c then lstrip s' else s
  end.

Fixpoint rstrip (s : string) : string :=
  match s with
  | EmptyString => EmptyString
  | String c s' =>
      let r := rstrip s' in
      if isspace c && is_empty r then EmptyString else String c r
  end.

(** [s.strip()] *)
Definition strip (s : string) : string := rstrip (lstrip s).

(** [s.startswith(p)] *)
Fixpoint startswith (p s : string) : bool :=
  match p, s with
  | EmptyString, _ => true
  | String a p', String b s' => Ascii.eqb a b && startswith p' s'
  | String _ _, EmptyString => false
  end.

(** [sub in s] *)
Fixpoint contains (sub s : string) : bool :=
  startswith sub s
  || match s with
     | EmptyString => false
     | String _ s' => contains sub s'
     end.

Definition cons_head (c : ascii) (l : list string) : list string :=
  match l with
  | [] => [String c EmptyString]
  | p :: ps => String c p :: ps
  end.

(** [s.split(sep)] for a non-empty [sep]: the occurrences of [sep] are
    found from left to right and do not overlap.  [skip] counts the
    characters of an occurrence that are still to be passed over. *)
Fixpoint split_from (sep : string) (skip : nat) (s : string) : list string :=
  match s with
  | EmptyString => [EmptyString]
  | String c s' =>
      match skip with
      | S k => split_from sep k s'
      | O =>
          if startswith sep s
          then EmptyString :: split_from sep (Nat.pred (String.length sep)) s'
          else cons_head c (split_from sep O s')
      end
  end.

Definition split (sep s : string) : list string := split_from sep O s.

(** [sep.join(l)] *)
Fixpoint join (sep : string) (l : list string) : string :=
  match l with
  | [] => EmptyString
  | [x] => x
  | x :: l' => x +:+ sep +:+ join sep l'
  end.

(** [int(s)] for a string of decimal digits. *)
Fixpoint int_from (acc : Z) (s : string) : Z :=
  match s with
  | EmptyString => acc
  | String c s' => int_from (10 * acc + (code c - 48)) s'
  end.

Definition int (s : string) : Z := int_from 0 s.

Definition digit (d : Z) : ascii := ascii_of_N (Z.to_N (48 + d)).

(** ["%02d" % n] for [0 <= n < 100] *)
Definition fmt02 (n : Z) : string :=
  String (digit (n / 10 mod 10)) (String (digit (n mod 10)) EmptyString).

(** ["%06d" % n] for [0 <= n < 1000000] *)
Definition fmt06 (n : Z) : string :=
  String (digit (n / 100000 mod 10)) (String (digit (n / 10000 mod 10))
  (String (digit (n / 1000 mod 10)) (String (digit (n / 100 mod 10))
  (fmt02 n)))).

(** [s * n] *)
Fixpoint repeat (s : string) (n : nat) : string :=
  match n with
  | O => EmptyString
  | S n' => s +:+ repeat s n'
  end.

End Str.

Definition LF : string := String "010" EmptyString.

(** ** [datetime.timedelta] *)

(** A normalised duration, as Python stores it:
    [0 <= seconds < 86400] and [0 <= microseconds < 1000000]. *)
Record timedelta : Type := mk_timedelta {
  days : Z;
  seconds : Z;
  microseconds : Z
}.

Definition MAX_DELTA_DAYS : Z := 999999999.

(** The normalisation every [timedelta] constructor ends with: carries
    with floor division, then the range check on the days. *)
Definition normalize (d s us : Z) : result timedelta :=
  let s1 := s + us / 1000000 in
  let d1 := d + s1 / 86400 in
  if Z.abs d1 <=? MAX_DELTA_DAYS
  then Ok (mk_timedelta d1 (s1 mod 86400) (us mod 1000000))
  else Raise OverflowError.

(** [timedelta(milliseconds=ms)] *)
Definition timedelta_ms (ms : Z) : result timedelta :=
  normalize 0 0 (ms * 1000).

(** [a + b] on durations *)
Definition timedelta_add (a b : timedelta) : result timedelta :=
  normalize (days a + days b) (seconds a + seconds b)
            (microseconds a + microseconds b).

(** ** [datetime.datetime] *)

(** A naive date and time.  The calendar date is kept as its proleptic
    Gregorian ordinal ([toordinal()]: 1 is 0001-01-01); no directive of
    the fragment of formats covered here reads the year, month or day. *)
Record datetime : Type := mk_datetime {
  ordinal : Z;
  hour : Z;
  minute : Z;
  second : Z;
  microsecond : Z
}.

(** [date(9999, 12, 31).toordinal()] *)
Definition MAXORDINAL : Z := 3652059.

(** [date(1900, 1, 1).toordinal()]: the date [strptime] fills in when
    the format has no date directive. *)
Definition ORDINAL_1900 : Z := 693596.

(** [dt + delta] *)
Definition datetime_add (dt : datetime) (other : timedelta)
  : result datetime :=
  self ← normalize (ordinal dt) (hour dt * 3600 + minute dt * 60 + second dt)
                   (microsecond dt);
  delta ← timedelta_add self other;
  let h := seconds delta / 3600 in
  let rem := seconds delta mod 3600 in
  if (0 <? days delta) && (days delta <=? MAXORDINAL)
  then Ok (mk_datetime (days delta) h (rem / 60) (rem mod 60)
                       (microseconds delta))
  else Raise OverflowError.

(** ** Time formats *)

Inductive directive : Type := dH | dM | dS | df.

(** The pieces of a format string: a literal character, a run of
    whitespace, or a directive. *)
Inductive token : Type :=
  | Lit (c : ascii)
  | Space (ws : string)
  | Dir (d : directive).

Definition cons_space (c : ascii) (l : list token) : list token :=
  match l with
  | Space ws :: l' => Space (String c ws) :: l'
  | _ => Space (String c EmptyString) :: l
  end.

Definition directive_token (c : ascii) : option token :=
  if Ascii.eqb c "H" then Some (Dir dH)
  else if Ascii.eqb c "M" then Some (Dir dM)
  else if Ascii.eqb c "S" then Some (Dir dS)
  else if Ascii.eqb c "f" then Some (Dir df)
  else if Ascii.eqb c "%" then Some (Lit "%")
  else None.

(** The characters after [%] that are left without an answer: the
    directives of [strptime] that are not covered ([%a %A %b %B %c %d %G
    %I %j %m %p %u %U %V %w %W %x %X %y %Y %z %Z]), the further
    conversions of the C library's [strftime] and the flags and widths
    ([- _ 0 ^ #] and digits), which [strptime] refuses or accepts
    depending on the version of Python. *)
Definition uncovered_directives : string :=
  "aAbBcdGIjmpuUVwWxXyYzZCDeEFghklnOPrRstTv+-_^#0123456789".

Definition uncovered (c : ascii) : bool :=
  Str.contains (String c EmptyString) uncovered_directives.

(** Scans the format from left to right: [%H], [%M], [%S], [%f] and [%%]
    are the directives covered; a [%] before any other character that is
    no directive anywhere is the [ValueError] of a bad directive; a
    whitespace run is one token; any other character stands for itself.
    Only the characters from 1 to 127 are covered as literals. *)
Fixpoint tokenize_from (whole fmt : string) : result (list token) :=
  match fmt with
  | EmptyString => Ok []
  | String c rest =>
      if Ascii.eqb c "%"
      then match rest with
           | EmptyString => Raise (StrayPercent whole)
           | String d rest' =>
               match directive_token d with
               | Some t => toks ← tokenize_from whole rest'; Ok (t :: toks)
               | None => if uncovered d then Raise (OutsideFragment whole)
                         else Raise (BadDirective whole)
               end
           end
      else if Str.isspace c
      then toks ← tokenize_from whole rest; Ok (cons_space c toks)
      else if (0 <? Str.code c) && (Str.code c <? 128)
      then toks ← tokenize_from whole rest; Ok (Lit c :: toks)
      else Raise (OutsideFragment whole)
  end.

Definition tokenize (fmt : string) : result (list token) :=
  tokenize_from fmt fmt.

Definition directive_eqb (a b : directive) : bool :=
  match a, b with
  | dH, dH | dM, dM | dS, dS | df, df => true
  | _, _ => false
  end.

Definition count_directive (d : directive) (toks : list token) : nat :=
  List.length (List.filter (fun t => match t with
                                     | Dir d' => directive_eqb d d'
                                     | _ => false
                                     end) toks).

(** [re.compile] refuses a pattern that names a group twice. *)
Definition compile (fmt : string) : result (list token) :=
  toks ← tokenize fmt;
  if List.forallb (fun d => Nat.leb (count_directive d toks) 1) [dH; dM; dS; df]
  then Ok toks
  else Raise PatternError.

(** ** [datetime.strptime] *)

(** The named groups of a match. *)
Record captures : Type := mk_captures {
  group_H : option string;
  group_M : option string;
  group_S : option string;
  group_f : option string
}.

Definition no_captures : captures := mk_captures None None None None.

Definition capture (t : token) (txt : string) (found : captures) : captures :=
  match t with
  | Dir dH => mk_captures (Some txt) (group_M found) (group_S found) (group_f found)
  | Dir dM => mk_captures (group_H found) (Some txt) (group_S found) (group_f found)
  | Dir dS => mk_captures (group_H found) (group_M found) (Some txt) (group_f found)
  | Dir df => mk_captures (group_H found) (group_M found) (group_S found) (Some txt)
  | _ => found
  end.

Definition between (lo hi : ascii) (c : ascii) : bool :=
  (Str.code lo <=? Str.code c) && (Str.code c <=? Str.code hi).

(** One character of class [p]. *)
Definition one (p : ascii -> bool) (s : string) : list (string * string) :=
  match s with
  | String a r => if p a then [(String a EmptyString, r)] else []
  | EmptyString => []
  end.

(** A character of class [p] followed by one of class [q]. *)
Definition two (p q : ascii -> bool) (s : string) : list (string * string) :=
  match s with
  | String a (String b r) =>
      if p a && q b then [(String a (String b EmptyString), r)] else []
  | _ => []
  end.

(** [c{1,n}], greedy: the longest run first. *)
Fixpoint greedy (p : ascii -> bool) (n : nat) (s : string)
  : list (string * string) :=
  match n, s with
  | S n', String c s' =>
      if p c
      then List.map (fun m => (String c (fst m), snd m)) (greedy p n' s')
           ++ [(String c EmptyString, s')]
      else []
  | _, _ => []
  end.

(** The ways one token can match at the head of [s], in the order the
    regular-expression engine tries them; each is the text consumed and
    what is left.  The patterns are those of [_strptime.TimeRE]:
    [%H] is [2[0-3]|[0-1]\d|\d], [%M] is [[0-5]\d|\d],
    [%S] is [6[0-1]|[0-5]\d|\d], [%f] is [[0-9]{1,6}], whitespace is
    [\s+], and literals are compared ignoring case. *)
Definition alts (t : token) (s : string) : list (string * string) :=
  match t with
  | Lit c => one (fun a => Ascii.eqb (Str.lower a) (Str.lower c)) s
  | Space _ => greedy Str.isspace (String.length s) s
  | Dir dH => two (Ascii.eqb "2") (between "0" "3") s
              ++ two (between "0" "1") Str.isdigit s
              ++ one Str.isdigit s
  | Dir dM => two (between "0" "5") Str.isdigit s ++ one Str.isdigit s
  | Dir dS => two (Ascii.eqb "6") (between "0" "1") s
              ++ two (between "0" "5") Str.isdigit s
              ++ one Str.isdigit s
  | Dir df => greedy Str.isdigit 6 s
  end.

Fixpoint first_match {A B : Type} (k : A -> option B) (l : list A) : option B :=
  match l with
  | [] => None
  | a :: l' => match k a with
               | Some b => Some b
               | None => first_match k l'
               end
  end.

(** [pattern.match(s)]: the first way, in the engine's backtracking
    order, to match all the tokens at the start of [s]. *)
Fixpoint match_tokens (toks : list token) (s : string) (found : captures)
  : option (captures * string) :=
  match toks with
  | [] => Some (found, s)
  | t :: toks' =>
      first_match (fun m => match_tokens toks' (snd m) (capture t (fst m) found))
                  (alts t s)
  end.

Definition group_int (g : option string) : Z :=
  match g with
  | Some txt => Str.int txt
  | None => 0
  end.

(** The fraction is padded on the right to six digits before it is read. *)
Definition fraction_of (g : option string) : Z :=
  match g with
  | Some txt => Str.int (txt +:+ Str.repeat "0" (6 - String.length txt))
  | None => 0
  end.

(** [datetime(1900, 1, 1, hour, minute, second, fraction)]: the constructor
    checks its fields; the patterns already bound the hour and minute. *)
Definition datetime_of_captures (found : captures) : result datetime :=
  let s := group_int (group_S found) in
  if s <=? 59
  then Ok (mk_datetime ORDINAL_1900 (group_int (group_H found))
                       (group_int (group_M found)) s
                       (fraction_of (group_f found)))
  else Raise SecondOutOfRange.

(** [datetime.strptime(data_string, format)] *)
Definition strptime (data_string format : string) : result datetime :=
  toks ← compile format;
  match match_tokens toks data_string no_captures with
  | None => Raise (NoMatch data_string format)
  | Some (found, rest) =>
      if Str.is_empty rest
      then datetime_of_captures found
      else Raise (UnconvertedData rest)
  end.

(** ** [datetime.strftime] *)

Definition render (dt : datetime) (t : token) : string :=
  match t with
  | Lit c => String c EmptyString
  | Space ws => ws
  | Dir dH => Str.fmt02 (hour dt)
  | Dir dM => Str.fmt02 (minute dt)
  | Dir dS => Str.fmt02 (second dt)
  | Dir df => Str.fmt06 (microsecond dt)
  end.

Fixpoint render_all (dt : datetime) (toks : list token) : string :=
  match toks with
  | [] => EmptyString
  | t :: toks' => render dt t +:+ render_all dt toks'
  end.

(** [datetime.strftime(dt, format)] *)
Definition strftime (dt : datetime) (format : string) : result string :=
  toks ← tokenize format;
  Ok (render_all dt toks).

(** ** The program *)

Definition RANGE_MARKER : string := "-->".

(** [a, b = (f(x) for x in l)]: the generator is consumed one item at a
    time, and once more after the second item to see that it is
    exhausted. *)
Definition unpack2 {A B : Type} (f : A -> result B) (l : list A)
  : result (B * B) :=
  match l with
  | [] => Raise (NotEnoughValues 0)
  | [a] => _ ← f a; Raise (NotEnoughValues 1)
  | a :: b :: rest =>
      x ← f a;
      y ← f b;
      match rest with
      | [] => Ok (x, y)
      | c :: _ => _ ← f c; Raise TooManyValues
      end
  end.

Definition increment_line (line : string) (offset_ms : Z)
    (time_format : string) : result string :=
  '(ts1, ts2) ← unpack2 (fun x => strptime (Str.strip x) time_format)
                        (Str.split RANGE_MARKER line);
  offset ← timedelta_ms offset_ms;
  new1 ← (t ← datetime_add ts1 offset; strftime t time_format);
  new2 ← (t ← datetime_add ts2 offset; strftime t time_format);
  Ok (Str.join " --> " [new1; new2] +:+ LF).

(** ** Files *)

Definition CR : string := String "013" EmptyString.

(** The text layer of a file opened with ['r'] (universal newlines): a
    carriage return, alone or before a line feed, arrives as one line
    feed. *)
Fixpoint universal_newlines (content : string) : string :=
  match content with
  | EmptyString => EmptyString
  | String c rest =>
      if Ascii.eqb c "013"
      then match rest with
           | String d rest' =>
               if Ascii.eqb d "010"
               then String "010" (universal_newlines rest')
               else String "010" (universal_newlines rest)
           | EmptyString => String "010" EmptyString
           end
      else String c (universal_newlines rest)
  end.

(** The lines of a text, each with its line feed; the last one has none
    when the text does not end in one. *)
Fixpoint lines_of (text : string) : list string :=
  match text with
  | EmptyString => []
  | String c rest =>
      if Ascii.eqb c "010"
      then String c EmptyString :: lines_of rest
      else Str.cons_head c (lines_of rest)
  end.

(** [for line in f] on a file opened with ['r']: the lines of the
    content as the text layer presents it. *)
Definition readlines (content : string) : list string :=
  lines_of (universal_newlines content).

(** [for line in lines: o.write(line)] on a file opened with ['w']: on
    writing, a line feed stays a line feed. *)
Definition write_lines (lines : list string) : string :=
  List.fold_left (fun content line => content +:+ line) lines EmptyString.

(** The body of the [for] loop of [generate_new_srt_file], with the list
    [lines] it appends to. *)
Fixpoint transform_loop (lines : list string) (f : list string)
    (offset_ms : Z) (time_format : string) : result (list string) :=
  match f with
  | [] => Ok lines
  | line :: f' =>
      if Str.contains RANGE_MARKER line
      then new_line ← increment_line line offset_ms time_format;
           transform_loop (lines ++ [new_line]) f' offset_ms time_format
      else transform_loop (lines ++ [line]) f' offset_ms time_format
  end.

Definition generate_new_srt_file (srt_file output_srt_file : string)
    (offset_ms : Z) (time_format : string) (fs : gmap string string)
  : result unit * gmap string string :=
  match fs !! srt_file with
  | None => (Raise (FileNotFoundError srt_file), fs)
  | Some content =>
      match transform_loop [] (readlines content) offset_ms time_format with
      | Raise e => (Raise e, fs)
      | Ok lines => (Ok tt, <[output_srt_file := write_lines lines]> fs)
      end
  end.

(** The parsed command line. *)
Record args : Type := mk_args {
  input_file : string;
  output_file : string;
  delta : Z;
  time_format : option string
}.

Definition DEFAULT_FORMAT : string := "%H:%M:%S,%f".

(** [args.time_format if args.time_format else '%H:%M:%S,%f'] *)
Definition format_of (a : args) : string :=
  match time_format a with
  | Some f => if Str.is_empty f then DEFAULT_FORMAT else f
  | None => DEFAULT_FORMAT
  end.

(** [main], from the parsed arguments on: the [try] block turns a
    [ValueError] into the program's parse failure and lets every other
    exception through.  (It also catches [TypeError], which no call of
    this model raises: the arguments are typed.  The [print] that closes
    a successful run is console output.) *)
Definition main (a : args) (fs : gmap string string)
  : result unit * gmap string string :=
  match generate_new_srt_file (input_file a) (output_file a) (delta a)
                              (format_of a) fs with
  | (Raise err, fs') =>
      if is_ValueError err then (Raise (ParseFailure err), fs')
      else (Raise err, fs')
  | (Ok u, fs') => (Ok u, fs')
  end.

(** The line the loop appends for an input line. *)
Definition appended (line : string) (offset_ms : Z) (fmt : string)
  : result string :=
  if Str.contains RANGE_MARKER line
  then increment_line line offset_ms fmt
  else Ok line.

(** The terminator a line of a file carries: a newline, or nothing for an
    unterminated last line. *)
Fixpoint terminator (line : string) : string :=
  match line with
  | EmptyString => EmptyString
  | String c EmptyString => if Ascii.eqb c "010" then LF else EmptyString
  | String _ rest => terminator rest
  end.

(** The first line of a file on which the loop raises, with its index. *)
Fixpoint first_failure (i : nat) (f : list string) (offset_ms : Z)
    (fmt : string) : option (nat * string) :=
  match f with
  | [] => None
  | line :: f' =>
      match appended line offset_ms fmt with
      | Raise _ => Some (i, line)
      | Ok _ => first_failure (S i) f' offset_ms fmt
      end
  end.

(** The bounds the patterns put on what the groups capture. *)
Definition caps_ok (c : captures) : Prop :=
  0 <= group_int (group_H c) < 24 /\ 0 <= group_int (group_M c) < 60 /\
  0 <= group_int (group_S c) < 62 /\ 0 <= fraction_of (group_f c) < 1000000.

(** Every character of [s] is in the class [p]. *)
Fixpoint all_in (p : ascii -> bool) (s : string) : bool :=
  match s with
  | EmptyString => true
  | String c s' => p c && all_in p s'
  end.

(** ** Time of day *)

(** Microseconds in a day. *)
Definition DAY : Z := 86400000000.

(** The microseconds since midnight. *)
Definition time_of_day (dt : datetime) : Z :=
  ((hour dt * 60 + minute dt) * 60 + second dt) * 1000000 + microsecond dt.

(** The date [ord] at [t] microseconds after midnight. *)
Definition at_time (ord t : Z) : datetime :=
  mk_datetime ord (t / 3600000000) (t / 60000000 mod 60)
              (t / 1000000 mod 60) (t mod 1000000).

(** The fields of a time as [datetime] keeps them. *)
Definition well_formed (dt : datetime) : Prop :=
  0 <= hour dt < 24 /\ 0 <= minute dt < 60 /\ 0 <= second dt < 60 /\
  0 <= microsecond dt < 1000000.

(** The offsets, in milliseconds, that keep a time parsed onto 1900-01-01
    between 0001-01-01 and 9999-12-31. *)
Definition MIN_OFFSET : Z := -693595 * 86400000.
Definition MAX_OFFSET : Z := 2958463 * 86400000.

(** The result of shifting a parsed time by [ms] milliseconds: the time of
    day wraps modulo 24 hours and the date moves with it. *)
Definition wrapped (ts : datetime) (ms : Z) : datetime :=
  let total := time_of_day ts + 1000 * ms in
  at_time (ordinal ts + total / DAY) (total mod DAY).

(** The default format compiled, and a time written in it. *)
Definition default_tokens : list token :=
  [Dir dH; Lit ":"; Dir dM; Lit ":"; Dir dS; Lit ","; Dir df].

Definition stamp (dt : datetime) : string :=
  Str.fmt02 (hour dt) +:+ ":" +:+ Str.fmt02 (minute dt) +:+ ":"
  +:+ Str.fmt02 (second dt) +:+ "," +:+ Str.fmt06 (microsecond dt).

(** No character of [s] is a hyphen. *)
Definition dashless (s : string) : bool :=
  all_in (fun c => negb (Ascii.eqb "-" c)) s.

(** ** Well-formed lists of lines *)

(** The characters that do not end a line: neither a line feed nor a
    carriage return. *)
Definition inline (c : ascii) : bool :=
  negb (Ascii.eqb c "010") && negb (Ascii.eqb c "013").

(** No character of [s] ends a line. *)
Definition newline_free (s : string) : bool := all_in inline s.

(** No character of [s] is a carriage return. *)
Definition cr_free (s : string) : bool :=
  all_in (fun c => negb (Ascii.eqb c "013")) s.

(** A token that renders no newline. *)
Definition inline_token (t : token) : bool :=
  match t with
  | Lit c => inline c
  | Space ws => newline_free ws
  | Dir _ => true
  end.

(** A line that ends in its only newline. *)
Definition terminated (l : string) : Prop :=
  exists body, l = body +:+ LF /\ newline_free body = true.

(** The lines of a file: every line is terminated, except that the last
    one may be a non-empty line without a newline. *)
Fixpoint proper (ls : list string) : Prop :=
  match ls with
  | [] => True
  | [l] => terminated l \/ (l <> "" /\ newline_free l = true)
  | l :: ls' => terminated l /\ proper ls'
  end.

(** ** The range of the date arithmetic *)

(** The date that [ts] shifted by [ms] milliseconds falls on lies between
    0001-01-01 and 9999-12-31. *)
Definition date_in_range (ts : datetime) (ms : Z) : bool :=
  (0 <? ordinal (wrapped ts ms)) && (ordinal (wrapped ts ms) <=? MAXORDINAL).

(** The exceptions of parsing a range line. *)
Definition is_parse_error (fmt : string) (e : exn) : Prop :=
  e = TooManyValues \/ e = SecondOutOfRange \/ e = StrayPercent fmt \/
  e = BadDirective fmt \/
  (exists data, e = NoMatch data fmt) \/ (exists rest, e = UnconvertedData rest).

(** ** Sample files *)

Definition sample_srt : string :=
  "1" +:+ LF +:+ "00:00:01,000 --> 00:00:03,500" +:+ LF +:+ "Hello world" +:+ LF.

Definition sample_fs : gmap string string := {[ "in.srt" := sample_srt ]}.

Definition broken_srt : string :=
  "1" +:+ LF +:+ "00:00:01,000 --> 00:00:03,500" +:+ LF
  +:+ "bad --> 00:00:04,000" +:+ LF.

Definition broken_fs : gmap string string :=
  {[ "in.srt" := broken_srt; "out.srt" := "previous content" ]}.

(** * Checks on concrete inputs *)

Example split_two : Str.split "-->" "a --> b" = ["a "; " b"].
Proof. reflexivity. Qed.

Example split_overlap : Str.split "-->" "a--->b-->" = ["a-"; "b"; ""].
Proof. reflexivity. Qed.

Example split_none : Str.split "-->" "abc" = ["abc"].
Proof. reflexivity. Qed.

Example strip_both : Str.strip ("  00:01 " +:+ LF) = "00:01".
Proof. reflexivity. Qed.

Example readlines_last_unterminated :
  readlines ("1" +:+ LF +:+ LF +:+ "last") = ["1" +:+ LF; LF; "last"].
Proof. reflexivity. Qed.

Example readlines_universal_newlines :
  readlines ("a" +:+ CR +:+ LF +:+ "b" +:+ CR +:+ "c" +:+ LF +:+ CR +:+ "d")
  = ["a" +:+ LF; "b" +:+ LF; "c" +:+ LF; LF; "d"].
Proof. reflexivity. Qed.

Example strptime_short_fields :
  strptime "1:2:3,5" DEFAULT_FORMAT = Ok (mk_datetime ORDINAL_1900 1 2 3 500000).
Proof. reflexivity. Qed.

Example strptime_leap_second :
  strptime "23:59:60,0" DEFAULT_FORMAT = Raise SecondOutOfRange.
Proof. reflexivity. Qed.

Example strptime_seven_digits :
  strptime "00:00:01,1234567" DEFAULT_FORMAT = Raise (UnconvertedData "7").
Proof. reflexivity. Qed.

Example strptime_backtracks :
  strptime "123" "%H%M" = Ok (mk_datetime ORDINAL_1900 12 3 0 0).
Proof. reflexivity. Qed.

Example strptime_ignores_case :
  strptime "12H 5m" "%Hh %MM" = Ok (mk_datetime ORDINAL_1900 12 5 0 0).
Proof. reflexivity. Qed.

Example strptime_group_twice : strptime "12 12" "%H %H" = Raise PatternError.
Proof. reflexivity. Qed.

Example strptime_bad_directive :
  strptime "12" "%H%Q%" = Raise (BadDirective "%H%Q%").
Proof. reflexivity. Qed.

Example strptime_stray_percent :
  strptime "12" "%H%" = Raise (StrayPercent "%H%").
Proof. reflexivity. Qed.

Example strptime_uncovered_directive :
  strptime "1999" "%Y" = Raise (OutsideFragment "%Y").
Proof. reflexivity. Qed.

Example increment_line_three_parts :
  increment_line "0:0:1,0 --> 0:0:2,0 --> 0:0:3,0" 0 DEFAULT_FORMAT
  = Raise TooManyValues.
Proof. reflexivity. Qed.

Example increment_line_third_part_first :
  increment_line "0:0:1,0 --> 0:0:2,0 --> x" 0 DEFAULT_FORMAT
  = Raise (NoMatch "x" DEFAULT_FORMAT).
Proof. reflexivity. Qed.

Example increment_line_below_year_one :
  increment_line "00:00:00,000 --> 00:00:00,001" (MIN_OFFSET - 1) DEFAULT_FORMAT
  = Raise OverflowError.
Proof. vm_compute. reflexivity. Qed.

Example increment_line_first_day :
  increment_line "00:00:00,000 --> 00:00:00,001" MIN_OFFSET DEFAULT_FORMAT
  = Ok ("00:00:00,000000 --> 00:00:00,001000" +:+ LF).
Proof. vm_compute. reflexivity. Qed.

Example main_missing_input :
  main (mk_args "none.srt" "out.srt" 0 None) sample_fs
  = (Raise (FileNotFoundError "none.srt"), sample_fs).
Proof. vm_compute. reflexivity. Qed.

Example main_wraps_bad_directive :
  main (mk_args "in.srt" "out.srt" 0 (Some "%Q")) sample_fs
  = (Raise (ParseFailure (BadDirective "%Q")), sample_fs).
Proof. vm_compute. reflexivity. Qed.

Example main_overflow_not_caught :
  main (mk_args "in.srt" "out.srt" 300000000000000 None) sample_fs
  = (Raise OverflowError, sample_fs).
Proof. vm_compute. reflexivity. Qed.

(** * The loop of [generate_new_srt_file] *)

Ltac bind_cases H :=
  match type of H with
  | context [mbind _ ?r] =>
      let E := fresh "E" in
      destruct r eqn:E; cbn [mbind result_bind] in H; try discriminate H
  end.

Section Loop.
Variables (offset_ms : Z) (fmt : string).

Local Abbreviation step := (fun line => appended line offset_ms fmt).

Lemma transform_loop_unfold lines line f :
  transform_loop lines (line :: f) offset_ms fmt =
  (new_line ← appended line offset_ms fmt;
   transform_loop (lines ++ [new_line]) f offset_ms fmt).
Proof.
  unfold appended; cbn [transform_loop].
  destruct (Str.contains RANGE_MARKER line); reflexivity.
Qed.

Lemma transform_loop_Ok f : forall lines out,
  transform_loop lines f offset_ms fmt = Ok out <->
  exists new, out = lines ++ new /\ Forall2 (fun l l' => step l = Ok l') f new.
Proof.
  induction f as [|line f IH]; intros lines out.
  - cbn. split.
    + intros [= <-]. exists []. rewrite app_nil_r. split; [reflexivity | constructor].
    + intros (new & -> & Hall). inversion Hall. now rewrite app_nil_r.
  - rewrite transform_loop_unfold. split.
    + intros H. bind_cases H. apply IH in H as (new & -> & Hall).
      exists (a :: new). rewrite <- app_assoc. split; [reflexivity|].
      constructor; assumption.
    + intros (new & -> & Hall). inversion Hall as [|? l' ? new' Hl Hrest]; subst.
      rewrite Hl. cbn [mbind result_bind]. apply IH.
      exists new'. rewrite <- app_assoc. split; [reflexivity | assumption].
Qed.

Lemma transform_loop_Raise f : forall lines e,
  transform_loop lines f offset_ms fmt = Raise e <->
  exists i line,
    f !! i = Some line /\ step line = Raise e /\
    forall j l, (j < i)%nat -> f !! j = Some l -> exists l', step l = Ok l'.
Proof.
  induction f as [|line f IH]; intros lines e.
  - cbn. split; [discriminate|]. intros (i & l & Hl & _). destruct i; discriminate.
  - rewrite transform_loop_unfold. split.
    + intros H. destruct (appended line offset_ms fmt) as [new|e'] eqn:E;
        cbn [mbind result_bind] in H.
      * apply IH in H as (i & l & Hl & He & Hbefore).
        exists (S i), l. repeat split; try assumption.
        intros [|j] l0 Hj Hl0; cbn in Hl0.
        -- injection Hl0 as <-. eauto.
        -- apply (Hbefore j); [lia | assumption].
      * injection H as <-. exists 0%nat, line. repeat split; try assumption.
        intros j l0 Hj. lia.
    + intros (i & l & Hl & He & Hbefore). destruct i as [|i]; cbn in Hl.
      * injection Hl as ->. now rewrite He.
      * destruct (Hbefore 0%nat line) as [new Hnew]; [lia | reflexivity |].
        rewrite Hnew. cbn [mbind result_bind]. apply IH.
        exists i, l. repeat split; try assumption.
        intros j l0 Hj Hl0. apply (Hbefore (S j)); [lia | assumption].
Qed.

Lemma Forall2_step_lookup f new :
  Forall2 (fun l l' => step l = Ok l') f new ->
  forall i line, f !! i = Some line ->
    exists new_line, new !! i = Some new_line /\ step line = Ok new_line.
Proof.
  induction 1 as [|l l' f new Hl Hall IH]; intros i line Hi.
  - destruct i; discriminate.
  - destruct i as [|i]; cbn in *.
    + injection Hi as ->. eauto.
    + apply IH; assumption.
Qed.

Lemma step_total_Forall2 f :
  (forall i line, f !! i = Some line -> exists l', step line = Ok l') ->
  exists new, Forall2 (fun l l' => step l = Ok l') f new.
Proof.
  induction f as [|line f IH]; intros H.
  - exists []. constructor.
  - destruct (H 0%nat line) as [l' Hl']; [reflexivity|].
    destruct IH as [new Hnew].
    { intros i l Hi. apply (H (S i)). exact Hi. }
    exists (l' :: new). constructor; assumption.
Qed.

End Loop.

(** * [generate_new_srt_file] and [main] as a whole *)

Lemma generate_Ok srt out offset_ms fmt (fs fs' : gmap string string) :
  generate_new_srt_file srt out offset_ms fmt fs = (Ok (), fs') <->
  exists content lines,
    fs !! srt = Some content /\
    Forall2 (fun l l' => appended l offset_ms fmt = Ok l')
            (readlines content) lines /\
    fs' = <[out := write_lines lines]> fs.
Proof.
  unfold generate_new_srt_file. split.
  - destruct (fs !! srt) as [content|]; [|discriminate].
    destruct (transform_loop [] (readlines content) offset_ms fmt) as [lines|e] eqn:E;
      [|discriminate].
    intros [= <-]. apply transform_loop_Ok in E as (new & -> & Hall).
    exists content, new. auto.
  - intros (content & lines & -> & Hall & ->).
    assert (transform_loop [] (readlines content) offset_ms fmt = Ok lines) as ->.
    { apply transform_loop_Ok. exists lines. auto. }
    reflexivity.
Qed.

Lemma generate_Raise srt out offset_ms fmt (fs fs' : gmap string string) e :
  generate_new_srt_file srt out offset_ms fmt fs = (Raise e, fs') ->
  fs' = fs /\
  (fs !! srt = None /\ e = FileNotFoundError srt \/
   exists content, fs !! srt = Some content /\
     transform_loop [] (readlines content) offset_ms fmt = Raise e).
Proof.
  unfold generate_new_srt_file.
  destruct (fs !! srt) as [content|].
  - destruct (transform_loop [] (readlines content) offset_ms fmt) as [lines|e'] eqn:E;
      [discriminate|].
    intros [= <- <-]. split; [reflexivity|]. right. eauto.
  - intros [= <- <-]. auto.
Qed.

Lemma generate_first_failure srt out offset_ms fmt (fs : gmap string string)
    content i line e :
  fs !! srt = Some content ->
  readlines content !! i = Some line ->
  appended line offset_ms fmt = Raise e ->
  (forall j l, (j < i)%nat -> readlines content !! j = Some l ->
     exists l', appended l offset_ms fmt = Ok l') ->
  generate_new_srt_file srt out offset_ms fmt fs = (Raise e, fs).
Proof.
  intros Hfs Hi He Hbefore. unfold generate_new_srt_file. rewrite Hfs.
  assert (transform_loop [] (readlines content) offset_ms fmt = Raise e) as ->.
  { apply transform_loop_Raise. exists i, line. auto. }
  reflexivity.
Qed.

(** Some line raises: then there is a first one. *)
Lemma exists_first_raise offset_ms fmt (f : list string) :
  forall i line e,
    f !! i = Some line -> appended line offset_ms fmt = Raise e ->
    exists i0 line0 e0,
      (i0 <= i)%nat /\ f !! i0 = Some line0 /\
      appended line0 offset_ms fmt = Raise e0 /\
      forall j l, (j < i0)%nat -> f !! j = Some l ->
        exists l', appended l offset_ms fmt = Ok l'.
Proof.
  induction f as [|x f IH]; intros i line e Hi He.
  - destruct i; discriminate.
  - destruct (appended x offset_ms fmt) as [x'|ex] eqn:Ex.
    + destruct i as [|i]; cbn in Hi.
      * injection Hi as ->. congruence.
      * destruct (IH i line e Hi He) as (i0 & l0 & e0 & Hle & Hl0 & He0 & Hb).
        exists (S i0), l0, e0. split; [lia|]. split; [assumption|].
        split; [assumption|]. intros [|j] l Hj Hl; cbn in Hl.
        -- injection Hl as <-. eauto.
        -- apply (Hb j); [lia | assumption].
    + exists 0%nat, x, ex. split; [lia|]. split; [reflexivity|].
      split; [assumption|]. intros j l Hj. lia.
Qed.

Lemma appended_plain line offset_ms fmt :
  Str.contains RANGE_MARKER line = false ->
  appended line offset_ms fmt = Ok line.
Proof. unfold appended. now intros ->. Qed.

Lemma appended_range line offset_ms fmt :
  Str.contains RANGE_MARKER line = true ->
  appended line offset_ms fmt = increment_line line offset_ms fmt.
Proof. unfold appended. now intros ->. Qed.

Lemma appended_Raise line offset_ms fmt e :
  appended line offset_ms fmt = Raise e ->
  Str.contains RANGE_MARKER line = true /\
  increment_line line offset_ms fmt = Raise e.
Proof.
  unfold appended. destruct (Str.contains RANGE_MARKER line); [auto | discriminate].
Qed.

(** * Splitting a range line *)

Lemma split_from_nonempty sep s : forall skip, Str.split_from sep skip s <> [].
Proof.
  induction s as [|c s IH]; intros skip; cbn; [discriminate|].
  destruct skip; [|apply IH].
  destruct (Str.startswith sep (String c s)); [discriminate|].
  specialize (IH 0%nat). destruct (Str.split_from sep 0 s); [contradiction | discriminate].
Qed.

Lemma length_cons_head c l : l <> [] -> length (Str.cons_head c l) = length l.
Proof. destruct l; [contradiction | reflexivity]. Qed.

(** A line that contains the marker splits into at least two parts. *)
Lemma split_marker_length sep s :
  sep <> EmptyString ->
  Str.contains sep s = true -> (2 <= length (Str.split sep s))%nat.
Proof.
  intros Hsep. unfold Str.split. induction s as [|c s IH]; intros H.
  - destruct sep; [contradiction | discriminate].
  - cbn [Str.split_from]. cbn [Str.contains] in H.
    destruct (Str.startswith sep (String c s)).
    + pose proof (split_from_nonempty sep s (Nat.pred (String.length sep))) as Hne.
      destruct (Str.split_from sep (Nat.pred (String.length sep)) s);
        [contradiction | cbn; lia].
    + cbn in H. rewrite length_cons_head by apply split_from_nonempty. auto.
Qed.

Lemma split_range_line line :
  Str.contains RANGE_MARKER line = true ->
  exists p1 p2 rest, Str.split RANGE_MARKER line = p1 :: p2 :: rest.
Proof.
  intros H. apply split_marker_length in H; [|discriminate].
  destruct (Str.split RANGE_MARKER line) as [|p1 [|p2 rest]]; cbn in H; try lia.
  eauto.
Qed.

(** * What [increment_line] returns and raises *)

Lemma append_cons (x : ascii) (a b : string) :
  String x a +:+ b = String x (a +:+ b).
Proof. reflexivity. Qed.

Lemma append_nil_l (b : string) : "" +:+ b = b.
Proof. reflexivity. Qed.

Lemma append_single (c : ascii) (b : string) : String c "" +:+ b = String c b.
Proof. reflexivity. Qed.

Lemma append_assoc (a b c : string) : (a +:+ b) +:+ c = a +:+ b +:+ c.
Proof.
  induction a as [|x a IH]; [reflexivity|].
  rewrite !append_cons. now rewrite IH.
Qed.

Lemma append_nil_r (a : string) : a +:+ "" = a.
Proof.
  induction a as [|x a IH]; [reflexivity|].
  rewrite append_cons. now rewrite IH.
Qed.

Lemma Ok_inj {A : Type} (a b : A) : Ok a = Ok b -> a = b.
Proof. now intros [= ->]. Qed.

Lemma increment_line_Ok line offset_ms fmt out :
  increment_line line offset_ms fmt = Ok out <->
  exists p1 p2 ts1 ts2 offset t1 t2 new1 new2,
    Str.split RANGE_MARKER line = [p1; p2] /\
    strptime (Str.strip p1) fmt = Ok ts1 /\
    strptime (Str.strip p2) fmt = Ok ts2 /\
    timedelta_ms offset_ms = Ok offset /\
    datetime_add ts1 offset = Ok t1 /\ strftime t1 fmt = Ok new1 /\
    datetime_add ts2 offset = Ok t2 /\ strftime t2 fmt = Ok new2 /\
    out = new1 +:+ " --> " +:+ new2 +:+ LF.
Proof.
  unfold increment_line, unpack2. split.
  - intros H.
    destruct (Str.split RANGE_MARKER line) as [|p1 [|p2 [|p3 rest]]];
      cbn [mbind result_bind] in H; try discriminate H.
    + destruct (strptime (Str.strip p1) fmt); discriminate H.
    + destruct (strptime (Str.strip p1) fmt) as [ts1|] eqn:E1;
        cbn [mbind result_bind] in H; [|discriminate H].
      destruct (strptime (Str.strip p2) fmt) as [ts2|] eqn:E2;
        cbn [mbind result_bind] in H; [|discriminate H].
      destruct (timedelta_ms offset_ms) as [offset|] eqn:E3;
        cbn [mbind result_bind] in H; [|discriminate H].
      destruct (datetime_add ts1 offset) as [t1|] eqn:E4;
        cbn [mbind result_bind] in H; [|discriminate H].
      destruct (strftime t1 fmt) as [new1|] eqn:E5;
        cbn [mbind result_bind] in H; [|discriminate H].
      destruct (datetime_add ts2 offset) as [t2|] eqn:E6;
        cbn [mbind result_bind] in H; [|discriminate H].
      destruct (strftime t2 fmt) as [new2|] eqn:E7;
        cbn [mbind result_bind] in H; [|discriminate H].
      injection H as <-. exists p1, p2, ts1, ts2, offset, t1, t2, new1, new2.
      cbn [Str.join]. rewrite append_assoc. auto 10.
    + destruct (strptime (Str.strip p1) fmt);
        cbn [mbind result_bind] in H; [|discriminate H].
      destruct (strptime (Str.strip p2) fmt);
        cbn [mbind result_bind] in H; [|discriminate H].
      destruct (strptime (Str.strip p3) fmt); discriminate H.
  - intros (p1 & p2 & ts1 & ts2 & offset & t1 & t2 & new1 & new2 &
            -> & E1 & E2 & E3 & E4 & E5 & E6 & E7 & ->).
    rewrite E1; cbn [mbind result_bind]. rewrite E2; cbn [mbind result_bind].
    rewrite E3; cbn [mbind result_bind]. rewrite E4; cbn [mbind result_bind].
    rewrite E5; cbn [mbind result_bind]. rewrite E6; cbn [mbind result_bind].
    rewrite E7; cbn [mbind result_bind Str.join]. now rewrite append_assoc.
Qed.

Lemma tokenize_from_cons whole c rest :
  tokenize_from whole (String c rest) =
  if Ascii.eqb c "%"
  then match rest with
       | EmptyString => Raise (StrayPercent whole)
       | String d rest' =>
           match directive_token d with
           | Some t => toks ← tokenize_from whole rest'; Ok (t :: toks)
           | None => if uncovered d then Raise (OutsideFragment whole)
                     else Raise (BadDirective whole)
           end
       end
  else if Str.isspace c
  then toks ← tokenize_from whole rest; Ok (cons_space c toks)
  else if (0 <? Str.code c) && (Str.code c <? 128)
  then toks ← tokenize_from whole rest; Ok (Lit c :: toks)
  else Raise (OutsideFragment whole).
Proof. reflexivity. Qed.

Lemma tokenize_from_Raise whole fmt :
  (forall e, tokenize_from whole fmt = Raise e ->
     e = StrayPercent whole \/ e = BadDirective whole \/
     e = OutsideFragment whole) /\
  (forall c e, tokenize_from whole (String c fmt) = Raise e ->
     e = StrayPercent whole \/ e = BadDirective whole \/
     e = OutsideFragment whole).
Proof.
  induction fmt as [|d fmt [IH1 IH2]].
  - split; [discriminate|]. intros c e. cbn.
    destruct (Ascii.eqb c "%"); [intros [= <-]; auto|].
    destruct (Str.isspace c); [discriminate|].
    destruct (_ && _); [discriminate | intros [= <-]; auto].
  - split; [apply IH2|]. intros c e. rewrite tokenize_from_cons.
    destruct (Ascii.eqb c "%").
    + destruct (directive_token d);
        [|destruct (uncovered d); intros [= <-]; auto].
      destruct (tokenize_from whole fmt) eqn:E; cbn [mbind result_bind];
        [discriminate | intros [= <-]; auto].
    + destruct (tokenize_from whole (String d fmt)) eqn:E.
      * destruct (Str.isspace c); [discriminate|].
        destruct (_ && _); [discriminate | intros [= <-]; auto].
      * destruct (Str.isspace c); cbn [mbind result_bind]; [intros [= <-]; eauto|].
        destruct (_ && _); cbn [mbind result_bind]; intros [= <-]; eauto.
Qed.

Lemma compile_Raise fmt e :
  compile fmt = Raise e ->
  e = StrayPercent fmt \/ e = BadDirective fmt \/ e = OutsideFragment fmt \/
  e = PatternError.
Proof.
  unfold compile, tokenize.
  destruct (tokenize_from fmt fmt) as [toks|e'] eqn:E; cbn [mbind result_bind].
  - destruct (forallb _ _); [discriminate | intros [= <-]; auto].
  - intros [= <-]. apply (tokenize_from_Raise fmt fmt) in E as [->|[->| ->]]; auto.
Qed.

Lemma compile_Ok_tokenize fmt toks :
  compile fmt = Ok toks -> tokenize fmt = Ok toks.
Proof.
  unfold compile. destruct (tokenize fmt) as [toks'|]; cbn [mbind result_bind];
    [|discriminate].
  destruct (forallb _ _); [congruence | discriminate].
Qed.

Lemma strptime_Ok_compile x fmt ts :
  strptime x fmt = Ok ts -> exists toks, compile fmt = Ok toks.
Proof.
  unfold strptime. destruct (compile fmt) as [toks|]; [eauto | discriminate].
Qed.

(** What [strptime] raises. *)
Lemma strptime_Raise x fmt e :
  strptime x fmt = Raise e ->
  compile fmt = Raise e \/
  (exists toks, compile fmt = Ok toks) /\
  (e = NoMatch x fmt \/ (exists rest, e = UnconvertedData rest) \/
   e = SecondOutOfRange).
Proof.
  unfold strptime. destruct (compile fmt) as [toks|e'] eqn:E;
    cbn [mbind result_bind]; [|intros [= <-]; auto].
  intros H. right. split; [eauto|].
  destruct (match_tokens toks x no_captures) as [[found rest]|];
    [|injection H as <-; auto].
  destruct (Str.is_empty rest); [|injection H as <-; eauto].
  unfold datetime_of_captures in H.
  destruct (_ <=? 59); [discriminate | injection H as <-; auto].
Qed.

Lemma strftime_total fmt toks t :
  tokenize fmt = Ok toks -> strftime t fmt = Ok (render_all t toks).
Proof. unfold strftime. now intros ->. Qed.

(** The exceptions of [increment_line]: those of parsing a part, of the
    unpacking, and the overflow of the date arithmetic. *)
Lemma increment_line_Raise line offset_ms fmt e :
  increment_line line offset_ms fmt = Raise e ->
  (exists p, In p (Str.split RANGE_MARKER line) /\
             strptime (Str.strip p) fmt = Raise e) \/
  e = TooManyValues \/
  (length (Str.split RANGE_MARKER line) < 2)%nat \/
  e = OverflowError.
Proof.
  unfold increment_line, unpack2. intros H.
  destruct (Str.split RANGE_MARKER line) as [|p1 [|p2 [|p3 rest]]];
    cbn [mbind result_bind] in H.
  - right; right; left; cbn; lia.
  - right; right; left; cbn; lia.
  - destruct (strptime (Str.strip p1) fmt) as [ts1|] eqn:E1;
      cbn [mbind result_bind] in H;
      [|injection H as <-; left; exists p1; cbn; auto].
    destruct (strptime (Str.strip p2) fmt) as [ts2|] eqn:E2;
      cbn [mbind result_bind] in H;
      [|injection H as <-; left; exists p2; cbn; auto].
    destruct (timedelta_ms offset_ms) as [offset|] eqn:E3;
      cbn [mbind result_bind] in H.
    2:{ injection H as <-. unfold timedelta_ms, normalize in E3.
        destruct (_ <=? _) in E3; [discriminate | injection E3 as <-; auto]. }
    assert (Hadd : forall ts x, datetime_add ts offset = Raise x -> x = OverflowError).
    { intros ts x. unfold datetime_add, timedelta_add, normalize.
      repeat (destruct (_ <=? _); cbn [mbind result_bind]; [|now intros [= <-]]).
      destruct (_ && _); [discriminate | now intros [= <-]]. }
    destruct (datetime_add ts1 offset) as [t1|] eqn:E4;
      cbn [mbind result_bind] in H;
      [|injection H as <-; apply Hadd in E4; auto].
    destruct (strptime_Ok_compile _ _ _ E1) as [toks Htoks%compile_Ok_tokenize].
    rewrite !(strftime_total _ _ _ Htoks) in H. cbn [mbind result_bind] in H.
    destruct (datetime_add ts2 offset) as [t2|] eqn:E6;
      cbn [mbind result_bind] in H;
      [|injection H as <-; apply Hadd in E6; auto].
    rewrite (strftime_total _ _ _ Htoks) in H. discriminate H.
  - destruct (strptime (Str.strip p1) fmt) as [ts1|] eqn:E1;
      cbn [mbind result_bind] in H;
      [|injection H as <-; left; exists p1; cbn; auto].
    destruct (strptime (Str.strip p2) fmt) as [ts2|] eqn:E2;
      cbn [mbind result_bind] in H;
      [|injection H as <-; left; exists p2; cbn; auto].
    destruct (strptime (Str.strip p3) fmt) as [ts3|] eqn:E3;
      cbn [mbind result_bind] in H; injection H as <-;
      [auto | left; exists p3; cbn; auto].
Qed.



(** ** What a match leaves over *)

Lemma first_match_Some {A B : Type} (k : A -> option B) (l : list A) b :
  first_match k l = Some b -> exists a, In a l /\ k a = Some b.
Proof.
  induction l as [|a l IH]; cbn [first_match]; [discriminate|].
  destruct (k a) as [b'|] eqn:E.
  - intros [= <-]. exists a. split; [now left | assumption].
  - intros (a' & Hin & Ha')%IH. exists a'. split; [now right | assumption].
Qed.

Lemma one_suffix p s txt r : In (txt, r) (one p s) -> s = txt +:+ r.
Proof.
  destruct s as [|a s]; cbn [one]; [intros []|].
  destruct (p a); [|intros []]. now intros [[= <- <-]|[]].
Qed.

Lemma two_suffix p q s txt r : In (txt, r) (two p q s) -> s = txt +:+ r.
Proof.
  destruct s as [|a [|b s]]; cbn [two]; try (intros []).
  destruct (p a && q b); [|intros []]. now intros [[= <- <-]|[]].
Qed.

Lemma greedy_suffix p n : forall s txt r,
  In (txt, r) (greedy p n s) -> s = txt +:+ r.
Proof.
  induction n as [|n IH]; intros s txt r; [destruct s; intros []|].
  destruct s as [|c s]; cbn [greedy]; [intros []|].
  destruct (p c); [|intros []].
  intros [Hin|Hin]%in_app_or.
  - apply in_map_iff in Hin as ([txt' r'] & [= <- <-] & Hin).
    cbn [fst snd]. rewrite append_cons. f_equal. now apply IH.
  - destruct Hin as [[= <- <-]|[]]. reflexivity.
Qed.

Lemma alts_suffix t s txt r : In (txt, r) (alts t s) -> s = txt +:+ r.
Proof.
  destruct t as [c|ws|[| | |]]; cbn [alts]; intros H;
    repeat (apply in_app_or in H as [H|H]);
    eauto using one_suffix, two_suffix, greedy_suffix.
Qed.

(** What [match_tokens] leaves over is the end of the text it was given. *)
Lemma match_tokens_suffix toks : forall s found found' rest,
  match_tokens toks s found = Some (found', rest) ->
  exists pre, s = pre +:+ rest.
Proof.
  induction toks as [|t toks IH]; intros s found found' rest; cbn [match_tokens].
  - intros [= _ <-]. now exists "".
  - intros ([txt r] & Hin & Hm)%first_match_Some. cbn [fst snd] in Hm.
    apply alts_suffix in Hin as ->.
    apply IH in Hm as [pre ->]. exists (txt +:+ pre). now rewrite append_assoc.
Qed.

(** The text that [strptime] reports as unconverted is a non-empty end of
    the text it was given. *)
Lemma strptime_unconverted x fmt rest :
  strptime x fmt = Raise (UnconvertedData rest) ->
  rest <> "" /\ exists pre, x = pre +:+ rest.
Proof.
  unfold strptime. destruct (compile fmt) as [toks|e] eqn:E;
    cbn [mbind result_bind].
  - destruct (match_tokens toks x no_captures) as [[found rest']|] eqn:Hm;
      [|discriminate].
    destruct (Str.is_empty rest') eqn:Hr.
    + unfold datetime_of_captures. destruct (_ <=? 59); discriminate.
    + intros [= <-]. split; [now destruct rest'|].
      eapply match_tokens_suffix, Hm.
  - intros [= ->]. apply compile_Raise in E as [E|[E|[E|E]]]; discriminate E.
Qed.

Lemma first_failure_spec offset_ms fmt (f : list string) : forall k i line e,
  f !! i = Some line ->
  appended line offset_ms fmt = Raise e ->
  (forall j l, (j < i)%nat -> f !! j = Some l ->
     exists l', appended l offset_ms fmt = Ok l') ->
  first_failure k f offset_ms fmt = Some ((k + i)%nat, line).
Proof.
  induction f as [|x f IH]; intros k i line e Hi He Hb.
  - destruct i; discriminate.
  - cbn [first_failure]. destruct i as [|i]; cbn in Hi.
    + injection Hi as ->. rewrite He. now rewrite Nat.add_0_r.
    + destruct (Hb 0%nat x) as [x' ->]; [lia | reflexivity |].
      rewrite (IH (S k) i line e Hi He).
      * f_equal. f_equal. lia.
      * intros j l Hj Hl. apply (Hb (S j)); [lia | assumption].
Qed.

(** * What [strptime] returns *)

Lemma In_one p s m :
  In m (one p s) ->
  exists a r, s = String a r /\ p a = true /\ m = (String a "", r).
Proof.
  destruct s as [|a r]; cbn; [contradiction|].
  destruct (p a) eqn:E; [|contradiction]. intros [<-|[]]. eauto.
Qed.

Lemma In_two p q s m :
  In m (two p q s) ->
  exists a b r, s = String a (String b r) /\ p a = true /\ q b = true /\
                m = (String a (String b ""), r).
Proof.
  destruct s as [|a [|b r]]; cbn; try contradiction.
  destruct (p a) eqn:E1, (q b) eqn:E2; cbn; try contradiction.
  intros [<-|[]]. eauto 10.
Qed.

Lemma In_greedy p n : forall s m,
  In m (greedy p n s) ->
  all_in p (fst m) = true /\ (1 <= String.length (fst m) <= n)%nat /\
  s = fst m +:+ snd m.
Proof.
  induction n as [|n IH]; intros s m; cbn [greedy]; [contradiction|].
  destruct s as [|c s]; [contradiction|].
  destruct (p c) eqn:E; [|contradiction].
  rewrite in_app_iff, in_map_iff. intros [(m' & <- & Hm')|[<-|[]]].
  - apply IH in Hm' as (Hall & Hlen & ->). cbn [fst snd all_in String.length].
    rewrite E. repeat split; [assumption | lia | lia].
  - cbn. rewrite E. repeat split; lia.
Qed.

Lemma between_spec lo hi c :
  between lo hi c = true -> Str.code lo <= Str.code c <= Str.code hi.
Proof. unfold between. intros [H1 H2]%andb_true_iff. lia. Qed.

Lemma isdigit_spec c : Str.isdigit c = true -> 48 <= Str.code c <= 57.
Proof. unfold Str.isdigit. intros [H1 H2]%andb_true_iff. lia. Qed.

Lemma eqb_code a c : Ascii.eqb a c = true -> Str.code c = Str.code a.
Proof. now intros ->%Ascii.eqb_eq. Qed.

Lemma int_from_bounds x : forall acc,
  all_in Str.isdigit x = true -> 0 <= acc ->
  acc * 10 ^ Z.of_nat (String.length x) <= Str.int_from acc x
    < (acc + 1) * 10 ^ Z.of_nat (String.length x).
Proof.
  induction x as [|c x IH]; intros acc Hall Hacc.
  - cbn. lia.
  - cbn [all_in] in Hall. apply andb_true_iff in Hall as [Hc%isdigit_spec Hx].
    cbn [Str.int_from String.length]. rewrite Nat2Z.inj_succ, Z.pow_succ_r by lia.
    specialize (IH (10 * acc + (Str.code c - 48)) Hx ltac:(lia)).
    assert (0 < 10 ^ Z.of_nat (String.length x)) by (apply Z.pow_pos_nonneg; lia).
    nia.
Qed.

Lemma all_in_app p a b : all_in p (a +:+ b) = all_in p a && all_in p b.
Proof.
  induction a as [|c a IH]; [reflexivity|].
  rewrite append_cons. cbn [all_in]. now rewrite IH, andb_assoc.
Qed.

Lemma length_app a b :
  String.length (a +:+ b) = (String.length a + String.length b)%nat.
Proof.
  induction a as [|c a IH]; [reflexivity|].
  rewrite append_cons. cbn [String.length]. now rewrite IH.
Qed.

Lemma zeros_digits n :
  all_in Str.isdigit (Str.repeat "0" n) = true /\
  String.length (Str.repeat "0" n) = n.
Proof.
  induction n as [|n [IH1 IH2]]; [split; reflexivity|].
  cbn [Str.repeat]. rewrite all_in_app, length_app, IH1, IH2. split; reflexivity.
Qed.

Lemma fraction_bounds txt :
  all_in Str.isdigit txt = true -> (String.length txt <= 6)%nat ->
  0 <= fraction_of (Some txt) < 1000000.
Proof.
  intros Hall Hlen. unfold fraction_of, Str.int.
  destruct (zeros_digits (6 - String.length txt)) as [Hz Hl].
  pose proof (int_from_bounds (txt +:+ Str.repeat "0" (6 - String.length txt)) 0) as H.
  rewrite all_in_app, Hall, Hz, length_app, Hl in H.
  replace (String.length txt + (6 - String.length txt))%nat with 6%nat in H by lia.
  specialize (H eq_refl ltac:(lia)). change (10 ^ Z.of_nat 6) with 1000000 in H. lia.
Qed.

Lemma int_two a b :
  Str.int (String a (String b "")) = 10 * (Str.code a - 48) + (Str.code b - 48).
Proof. unfold Str.int. cbn [Str.int_from]. lia. Qed.

Lemma int_one a : Str.int (String a "") = Str.code a - 48.
Proof. unfold Str.int. cbn [Str.int_from]. lia. Qed.

(** Whatever a token captures keeps the groups within their bounds. *)
Lemma capture_ok t s m c :
  In m (alts t s) -> caps_ok c -> caps_ok (capture t (fst m) c).
Proof.
  intros Hm (HH & HM & HS & Hf).
  destruct t as [ch|ws|[| | |]]; cbn [alts capture] in *;
    unfold caps_ok; cbn [group_H group_M group_S group_f group_int];
    try (repeat split; lia).
  - rewrite !in_app_iff in Hm.
    destruct Hm as [Hm|[Hm|Hm]];
      [apply In_two in Hm as (a & b & r & _ & Ha%eqb_code & Hb%between_spec & ->)
      |apply In_two in Hm as (a & b & r & _ & Ha%between_spec & Hb%isdigit_spec & ->)
      |apply In_one in Hm as (a & r & _ & Ha%isdigit_spec & ->)];
      cbn [fst]; rewrite ?int_two, ?int_one;
      change (Str.code "0") with 48 in *; change (Str.code "1") with 49 in *;
      change (Str.code "2") with 50 in *; change (Str.code "3") with 51 in *;
      repeat split; lia.
  - rewrite !in_app_iff in Hm.
    destruct Hm as [Hm|Hm];
      [apply In_two in Hm as (a & b & r & _ & Ha%between_spec & Hb%isdigit_spec & ->)
      |apply In_one in Hm as (a & r & _ & Ha%isdigit_spec & ->)];
      cbn [fst]; rewrite ?int_two, ?int_one;
      change (Str.code "0") with 48 in *; change (Str.code "5") with 53 in *;
      repeat split; lia.
  - rewrite !in_app_iff in Hm.
    destruct Hm as [Hm|[Hm|Hm]];
      [apply In_two in Hm as (a & b & r & _ & Ha%eqb_code & Hb%between_spec & ->)
      |apply In_two in Hm as (a & b & r & _ & Ha%between_spec & Hb%isdigit_spec & ->)
      |apply In_one in Hm as (a & r & _ & Ha%isdigit_spec & ->)];
      cbn [fst]; rewrite ?int_two, ?int_one;
      change (Str.code "0") with 48 in *; change (Str.code "1") with 49 in *;
      change (Str.code "5") with 53 in *; change (Str.code "6") with 54 in *;
      repeat split; lia.
  - apply In_greedy in Hm as (Hall & Hlen & _).
    repeat split; try lia; apply fraction_bounds; assumption || lia.
Qed.

Lemma match_tokens_ok toks : forall s c c' rest,
  match_tokens toks s c = Some (c', rest) -> caps_ok c -> caps_ok c'.
Proof.
  induction toks as [|t toks IH]; intros s c c' rest; cbn [match_tokens].
  - now intros [= <- _].
  - intros (m & Hm & Hk)%first_match_Some Hc.
    eapply IH; [exact Hk|]. eapply capture_ok; eassumption.
Qed.

Lemma no_captures_ok : caps_ok no_captures.
Proof. unfold caps_ok. cbn. lia. Qed.

(** A parsed time is a time of day on 1900-01-01. *)
Lemma strptime_well_formed x fmt ts :
  strptime x fmt = Ok ts -> well_formed ts /\ ordinal ts = ORDINAL_1900.
Proof.
  unfold strptime. destruct (compile fmt) as [toks|]; cbn [mbind result_bind];
    [|discriminate].
  destruct (match_tokens toks x no_captures) as [[found rest]|] eqn:E; [|discriminate].
  destruct (Str.is_empty rest); [|discriminate].
  apply match_tokens_ok in E as (HH & HM & HS & Hf); [|apply no_captures_ok].
  unfold datetime_of_captures.
  destruct (Z.leb_spec (group_int (group_S found)) 59); [|discriminate].
  intros [= <-]. unfold well_formed. cbn. repeat split; lia.
Qed.

(** * Date arithmetic *)

Lemma timedelta_ms_Ok ms offset :
  timedelta_ms ms = Ok offset ->
  days offset = ms * 1000 / 1000000 / 86400 /\
  seconds offset = (ms * 1000 / 1000000) mod 86400 /\
  microseconds offset = (ms * 1000) mod 1000000.
Proof.
  unfold timedelta_ms, normalize. destruct (_ <=? _); [|discriminate].
  intros [= <-]. cbn. rewrite !Z.add_0_l. auto.
Qed.

Lemma timedelta_ms_in_range ms :
  MIN_OFFSET <= ms <= MAX_OFFSET -> exists offset, timedelta_ms ms = Ok offset.
Proof.
  unfold MIN_OFFSET, MAX_OFFSET, timedelta_ms, normalize, MAX_DELTA_DAYS. intros H.
  destruct (Z.leb_spec (Z.abs (0 + (0 + ms * 1000 / 1000000) / 86400)) 999999999)
    as [_|Hbad]; [eauto|].
  exfalso. revert Hbad. Z.to_euclidean_division_equations. lia.
Qed.

(** Adding a duration of [ms] milliseconds: the time of day wraps modulo
    24 hours, the date moves by the days carried, and the result must lie
    between 0001-01-01 and 9999-12-31. *)
Lemma datetime_add_ms dt ms offset :
  well_formed dt -> 0 < ordinal dt <= MAXORDINAL ->
  timedelta_ms ms = Ok offset ->
  datetime_add dt offset =
  if (0 <? ordinal (wrapped dt ms)) && (ordinal (wrapped dt ms) <=? MAXORDINAL)
  then Ok (wrapped dt ms) else Raise OverflowError.
Proof.
  intros (Hh & Hm & Hs & Hus) Hord (Hd & Hsec & Hmic)%timedelta_ms_Ok.
  unfold datetime_add, timedelta_add, normalize, wrapped, at_time, time_of_day,
    MAX_DELTA_DAYS, MAXORDINAL, DAY in *.
  destruct dt as [o h m sec us]; cbn [ordinal hour minute second microsecond] in *.
  match goal with |- context [Z.abs ?d <=? _] =>
    destruct (Z.leb_spec (Z.abs d) 999999999) as [_|Hbad] end.
  2:{ exfalso. revert Hbad. Z.to_euclidean_division_equations. lia. }
  cbn [mbind result_bind days seconds microseconds].
  rewrite Hd, Hsec, Hmic.
  match goal with |- context [Z.abs ?d <=? _] =>
    destruct (Z.leb_spec (Z.abs d) 999999999) as [Hok|Hbad] end;
  cbn [mbind result_bind days seconds microseconds].
  - match goal with |- (if ?c then _ else _) = (if ?c' then _ else _) =>
      assert (c = c') as ->
    end.
    { f_equal; [f_equal|f_equal]; Z.to_euclidean_division_equations; lia. }
    destruct (_ && _); [|reflexivity].
    f_equal. f_equal; Z.to_euclidean_division_equations; lia.
  - match goal with |- _ = (if ?c' then _ else _) =>
      assert (c' = false) as ->; [|reflexivity]
    end.
    apply andb_false_iff.
    match goal with |- (0 <? ?x) = false \/ _ =>
      destruct (Z.ltb_spec 0 x) as [Hpos|]; [right | left; reflexivity]
    end.
    apply Z.leb_gt. revert Hbad Hpos. Z.to_euclidean_division_equations. lia.
Qed.

Lemma wrapped_in_range ts ms :
  well_formed ts -> ordinal ts = ORDINAL_1900 ->
  MIN_OFFSET <= ms <= MAX_OFFSET ->
  (0 <? ordinal (wrapped ts ms)) && (ordinal (wrapped ts ms) <=? MAXORDINAL) = true.
Proof.
  intros (Hh & Hm & Hs & Hus) Hord Hms.
  unfold wrapped, at_time, time_of_day, MIN_OFFSET, MAX_OFFSET, MAXORDINAL,
    ORDINAL_1900, DAY in *.
  cbn [ordinal]. rewrite Hord. apply andb_true_iff. split.
  - apply Z.ltb_lt. Z.to_euclidean_division_equations. lia.
  - apply Z.leb_le. Z.to_euclidean_division_equations. lia.
Qed.

(** No directive covered here reads the date. *)
Lemma strftime_date o o' t fmt :
  strftime (at_time o t) fmt = strftime (at_time o' t) fmt.
Proof.
  unfold strftime. destruct (tokenize fmt) as [toks|]; cbn [mbind result_bind];
    [|reflexivity].
  f_equal. induction toks as [|tok toks IH]; [reflexivity|].
  cbn [render_all]. rewrite IH. now destruct tok as [c|ws|[| | |]].
Qed.

Lemma time_of_day_at_time o t :
  0 <= t < DAY -> time_of_day (at_time o t) = t /\ well_formed (at_time o t).
Proof.
  unfold DAY, time_of_day, at_time, well_formed.
  cbn [hour minute second microsecond]. intros H.
  repeat split; Z.to_euclidean_division_equations; lia.
Qed.

Lemma at_time_time_of_day dt :
  well_formed dt -> at_time (ordinal dt) (time_of_day dt) = dt.
Proof.
  destruct dt as [o h m sec us]. unfold well_formed, at_time, time_of_day.
  cbn [ordinal hour minute second microsecond]. intros (Hh & Hm & Hs & Hus).
  f_equal; Z.to_euclidean_division_equations; lia.
Qed.

(** The shift of one parsed timestamp, for an offset in range. *)
Lemma shift_in_range ts ms offset x fmt :
  strptime x fmt = Ok ts -> MIN_OFFSET <= ms <= MAX_OFFSET ->
  timedelta_ms ms = Ok offset ->
  datetime_add ts offset = Ok (wrapped ts ms).
Proof.
  intros [Hwf Hord]%strptime_well_formed Hms Hoff.
  rewrite (datetime_add_ms ts ms offset Hwf); [| |assumption].
  - now rewrite wrapped_in_range.
  - rewrite Hord. unfold ORDINAL_1900, MAXORDINAL. lia.
Qed.

(** * The default format *)

Lemma compile_default : compile DEFAULT_FORMAT = Ok default_tokens.
Proof. reflexivity. Qed.

Lemma strftime_default dt : strftime dt DEFAULT_FORMAT = Ok (stamp dt).
Proof. reflexivity. Qed.

Lemma below_cases (P : Z -> Prop) (n : nat) :
  (forall k : nat, (k < n)%nat -> P (Z.of_nat k)) ->
  forall h, 0 <= h < Z.of_nat n -> P h.
Proof.
  intros H h Hh. rewrite <- (Z2Nat.id h) by lia. apply H. lia.
Qed.

Ltac cases_below k tac :=
  first [ lia | destruct k as [|k]; [tac | cases_below k tac] ].

Ltac by_cases h n tac :=
  pattern h; apply (below_cases _ n); [|lia];
  let k := fresh "k" in let Hk := fresh "Hk" in
  intros k Hk; cases_below k tac.

Lemma digit_facts d :
  0 <= d < 10 ->
  Str.isdigit (Str.digit d) = true /\ Str.code (Str.digit d) = 48 + d /\
  Str.isspace (Str.digit d) = false /\ Ascii.eqb "-" (Str.digit d) = false.
Proof. intros Hd. by_cases d 10%nat ltac:(repeat split; reflexivity). Qed.

Lemma isdigit_digit d : 0 <= d < 10 -> Str.isdigit (Str.digit d) = true.
Proof. apply digit_facts. Qed.

Lemma code_digit d : 0 <= d < 10 -> Str.code (Str.digit d) = 48 + d.
Proof. apply digit_facts. Qed.

Lemma isspace_digit d : 0 <= d < 10 -> Str.isspace (Str.digit d) = false.
Proof. apply digit_facts. Qed.

Lemma dash_digit d : 0 <= d < 10 -> Ascii.eqb "-" (Str.digit d) = false.
Proof. apply digit_facts. Qed.

Lemma int_fmt02 n : 0 <= n < 100 -> Str.int (Str.fmt02 n) = n.
Proof.
  intros Hn. unfold Str.fmt02. rewrite int_two.
  rewrite !code_digit by (apply Z.mod_pos_bound; lia).
  Z.to_euclidean_division_equations. lia.
Qed.

Lemma fraction_fmt06 n : 0 <= n < 1000000 -> fraction_of (Some (Str.fmt06 n)) = n.
Proof.
  intros Hn. unfold fraction_of. change (String.length (Str.fmt06 n)) with 6%nat.
  change (Str.repeat "0" (6 - 6)) with "". rewrite append_nil_r.
  unfold Str.fmt06, Str.fmt02, Str.int. cbn [Str.int_from].
  rewrite !code_digit by (apply Z.mod_pos_bound; lia).
  Z.to_euclidean_division_equations. lia.
Qed.

Ltac match_case :=
  intros; cbn [match_tokens]; cbv -[match_tokens];
  match goal with
  | |- context [match_tokens ?toks ?rest ?c] => destruct (match_tokens toks rest c)
  end; reflexivity.

Lemma match_hour h toks rest found :
  0 <= h < 24 ->
  match_tokens (Dir dH :: Lit ":" :: toks) (Str.fmt02 h +:+ String ":" rest) found
  = match_tokens toks rest (capture (Dir dH) (Str.fmt02 h) found).
Proof. intros Hh. revert toks rest found. by_cases h 24%nat match_case. Qed.

Lemma match_minute m toks rest found :
  0 <= m < 60 ->
  match_tokens (Dir dM :: Lit ":" :: toks) (Str.fmt02 m +:+ String ":" rest) found
  = match_tokens toks rest (capture (Dir dM) (Str.fmt02 m) found).
Proof. intros Hm. revert toks rest found. by_cases m 60%nat match_case. Qed.

Lemma match_second sec toks rest found :
  0 <= sec < 60 ->
  match_tokens (Dir dS :: Lit "," :: toks) (Str.fmt02 sec +:+ String "," rest) found
  = match_tokens toks rest (capture (Dir dS) (Str.fmt02 sec) found).
Proof. intros Hs. revert toks rest found. by_cases sec 60%nat match_case. Qed.

Lemma match_fraction us found :
  0 <= us < 1000000 ->
  match_tokens [Dir df] (Str.fmt06 us) found
  = Some (capture (Dir df) (Str.fmt06 us) found, "").
Proof.
  intros Hus. unfold Str.fmt06, Str.fmt02.
  cbn [match_tokens alts greedy].
  rewrite !isdigit_digit by (apply Z.mod_pos_bound; lia).
  reflexivity.
Qed.

(** Reading back a time written in the default format. *)
Lemma strptime_stamp dt :
  well_formed dt ->
  strptime (stamp dt) DEFAULT_FORMAT
  = Ok (mk_datetime ORDINAL_1900 (hour dt) (minute dt) (second dt) (microsecond dt)).
Proof.
  intros (Hh & Hm & Hs & Hus). unfold strptime. rewrite compile_default.
  cbn [mbind result_bind]. unfold default_tokens, stamp.
  rewrite !append_single.
  rewrite match_hour, match_minute, match_second, match_fraction by assumption.
  cbn [Str.is_empty]. unfold datetime_of_captures.
  cbn [capture no_captures group_H group_M group_S group_f group_int].
  rewrite !int_fmt02, fraction_fmt06 by lia.
  destruct (Z.leb_spec (second dt) 59); [reflexivity | lia].
Qed.

(** * Lines in the transformer's own form *)

Lemma startswith_dash c s :
  Ascii.eqb "-" c = false -> Str.startswith RANGE_MARKER (String c s) = false.
Proof. intros H. unfold RANGE_MARKER. cbn [Str.startswith]. now rewrite H. Qed.

Lemma split_dashless_prefix a : forall s,
  dashless a = true ->
  Str.split RANGE_MARKER (a +:+ s) =
  match Str.split RANGE_MARKER s with
  | p :: ps => (a +:+ p) :: ps
  | [] => [a]
  end.
Proof.
  unfold Str.split, dashless.
  induction a as [|c a IH]; intros s H.
  - rewrite append_nil_l.
    pose proof (split_from_nonempty RANGE_MARKER s 0) as Hne.
    now destruct (Str.split_from RANGE_MARKER 0 s).
  - cbn [all_in] in H. apply andb_true_iff in H as [Hc%negb_true_iff Ha].
    rewrite append_cons. cbn [Str.split_from].
    rewrite (startswith_dash _ _ Hc), (IH s Ha).
    now destruct (Str.split_from RANGE_MARKER 0 s).
Qed.

Lemma split_marker_head s :
  Str.split RANGE_MARKER (RANGE_MARKER +:+ s) = "" :: Str.split RANGE_MARKER s.
Proof. reflexivity. Qed.

Lemma split_dashless s :
  dashless s = true -> Str.split RANGE_MARKER s = [s].
Proof.
  intros H. rewrite <- (append_nil_r s) at 1.
  rewrite (split_dashless_prefix s "" H).
  change (Str.split RANGE_MARKER "") with [""]. cbv beta iota.
  now rewrite append_nil_r.
Qed.

Lemma dashless_app a b : dashless (a +:+ b) = dashless a && dashless b.
Proof. apply all_in_app. Qed.

(** A line made of two hyphen-free texts around [" --> "]. *)
Lemma split_canonical a b :
  dashless a = true -> dashless b = true ->
  Str.split RANGE_MARKER (a +:+ " --> " +:+ b +:+ LF)
  = [a +:+ " "; " " +:+ b +:+ LF].
Proof.
  intros Ha Hb.
  change (a +:+ " --> " +:+ b +:+ LF)
    with (a +:+ String " " (RANGE_MARKER +:+ String " " (b +:+ LF))).
  rewrite <- (append_single " " (RANGE_MARKER +:+ _)), <- append_assoc.
  rewrite split_dashless_prefix by (now rewrite dashless_app, Ha).
  rewrite split_marker_head, split_dashless.
  - now rewrite append_nil_r.
  - rewrite <- (append_single " "), !dashless_app, Hb. reflexivity.
Qed.

Lemma dashless_stamp dt : dashless (stamp dt) = true.
Proof.
  unfold stamp, Str.fmt06, Str.fmt02, dashless.
  rewrite !append_single, !append_cons, !append_nil_l. cbn [all_in].
  rewrite !dash_digit by (apply Z.mod_pos_bound; lia). reflexivity.
Qed.

Lemma lstrip_nonspace c s :
  Str.isspace c = false -> Str.lstrip (String c s) = String c s.
Proof. intros H. cbn [Str.lstrip]. now rewrite H. Qed.

Lemma is_empty_snoc s c : Str.is_empty (s +:+ String c "") = false.
Proof. now destruct s. Qed.

Lemma rstrip_snoc_space s c :
  Str.isspace c = true -> Str.rstrip (s +:+ String c "") = Str.rstrip s.
Proof.
  intros Hc. induction s as [|x s IH].
  - rewrite append_nil_l. cbn [Str.rstrip Str.is_empty]. now rewrite Hc.
  - rewrite append_cons. cbn [Str.rstrip]. now rewrite IH.
Qed.

Lemma rstrip_snoc_nonspace s c :
  Str.isspace c = false -> Str.rstrip (s +:+ String c "") = s +:+ String c "".
Proof.
  intros Hc. induction s as [|x s IH].
  - rewrite append_nil_l. cbn [Str.rstrip Str.is_empty]. now rewrite Hc.
  - rewrite append_cons. cbn [Str.rstrip]. rewrite IH, is_empty_snoc.
    now rewrite andb_false_r.
Qed.

(** A written time starts and ends with a digit. *)
Lemma stamp_ends dt :
  exists c0 tail body c1,
    stamp dt = String c0 tail /\ stamp dt = body +:+ String c1 "" /\
    Str.isspace c0 = false /\ Str.isspace c1 = false.
Proof.
  exists (Str.digit (hour dt / 10 mod 10)).
  eexists. eexists (String _ (String _ (String _ (String _ (String _ (String _
    (String _ (String _ (String _ (String _ (String _ (String _ (String _
    (String _ "")))))))))))))).
  exists (Str.digit (microsecond dt mod 10)).
  split; [reflexivity|]. split; [reflexivity|].
  split; apply isspace_digit, Z.mod_pos_bound; lia.
Qed.

Lemma strip_stamp_left dt : Str.strip (stamp dt +:+ " ") = stamp dt.
Proof.
  destruct (stamp_ends dt) as (c0 & tail & body & c1 & H0 & H1 & Hc0 & Hc1).
  unfold Str.strip. rewrite H0 at 1. rewrite append_cons, lstrip_nonspace by assumption.
  rewrite <- append_cons, <- H0, rstrip_snoc_space by reflexivity.
  rewrite H1. now apply rstrip_snoc_nonspace.
Qed.

Lemma strip_stamp_right dt : Str.strip (" " +:+ stamp dt +:+ LF) = stamp dt.
Proof.
  destruct (stamp_ends dt) as (c0 & tail & body & c1 & H0 & H1 & Hc0 & Hc1).
  unfold Str.strip. rewrite append_single. cbn [Str.lstrip].
  change (Str.isspace " ") with true. cbv iota.
  rewrite H0 at 1. rewrite append_cons, lstrip_nonspace by assumption.
  rewrite <- append_cons, <- H0. unfold LF. rewrite rstrip_snoc_space by reflexivity.
  rewrite H1. now apply rstrip_snoc_nonspace.
Qed.

Lemma stamp_date o o' t : stamp (at_time o t) = stamp (at_time o' t).
Proof. reflexivity. Qed.

Lemma stamp_wrapped ts ms :
  stamp (wrapped ts ms)
  = stamp (at_time ORDINAL_1900 ((time_of_day ts + 1000 * ms) mod DAY)).
Proof. reflexivity. Qed.

Lemma stamp_at_time_of_day o dt :
  well_formed dt -> stamp (at_time o (time_of_day dt)) = stamp dt.
Proof.
  intros H. rewrite (stamp_date o (ordinal dt)). now rewrite at_time_time_of_day.
Qed.

Lemma increment_line_wraps line offset_ms fmt p1 p2 ts1 ts2 :
  Str.split RANGE_MARKER line = [p1; p2] ->
  strptime (Str.strip p1) fmt = Ok ts1 ->
  strptime (Str.strip p2) fmt = Ok ts2 ->
  MIN_OFFSET <= offset_ms <= MAX_OFFSET ->
  increment_line line offset_ms fmt =
  (new1 ← strftime (wrapped ts1 offset_ms) fmt;
   new2 ← strftime (wrapped ts2 offset_ms) fmt;
   Ok (new1 +:+ " --> " +:+ new2 +:+ LF)).
Proof.
  intros Hsplit H1 H2 Hms.
  destruct (timedelta_ms_in_range offset_ms Hms) as [offset Hoff].
  unfold increment_line, unpack2. rewrite Hsplit, H1. cbn [mbind result_bind].
  rewrite H2. cbn [mbind result_bind]. rewrite Hoff. cbn [mbind result_bind].
  rewrite (shift_in_range ts1 offset_ms offset _ fmt H1 Hms Hoff),
          (shift_in_range ts2 offset_ms offset _ fmt H2 Hms Hoff).
  cbn [mbind result_bind].
  destruct (strftime (wrapped ts1 offset_ms) fmt) as [new1|];
    cbn [mbind result_bind]; [|reflexivity].
  destruct (strftime (wrapped ts2 offset_ms) fmt) as [new2|];
    cbn [mbind result_bind]; [|reflexivity].
  cbn [Str.join]. now rewrite append_assoc.
Qed.

Lemma well_formed_wrapped ts ms : well_formed (wrapped ts ms).
Proof.
  unfold wrapped. apply time_of_day_at_time. apply Z.mod_pos_bound.
  unfold DAY. lia.
Qed.

Lemma time_of_day_wrapped ts ms :
  time_of_day (wrapped ts ms) = (time_of_day ts + 1000 * ms) mod DAY.
Proof.
  unfold wrapped. apply time_of_day_at_time. apply Z.mod_pos_bound.
  unfold DAY. lia.
Qed.

(** A successful addition is the wrapped time. *)
Lemma datetime_add_Ok ts ms offset t x fmt :
  strptime x fmt = Ok ts -> timedelta_ms ms = Ok offset ->
  datetime_add ts offset = Ok t -> t = wrapped ts ms.
Proof.
  intros [Hwf Hord]%strptime_well_formed Hoff.
  rewrite (datetime_add_ms ts ms offset Hwf); [| |assumption].
  - destruct (_ && _); [now intros [= <-] | discriminate].
  - rewrite Hord. unfold ORDINAL_1900, MAXORDINAL. lia.
Qed.

(** The text of a line transformed under the default format. *)
Lemma increment_line_default_Ok line d out :
  increment_line line d DEFAULT_FORMAT = Ok out ->
  exists p1 p2 ts1 ts2,
    Str.split RANGE_MARKER line = [p1; p2] /\
    strptime (Str.strip p1) DEFAULT_FORMAT = Ok ts1 /\
    strptime (Str.strip p2) DEFAULT_FORMAT = Ok ts2 /\
    out = stamp (wrapped ts1 d) +:+ " --> " +:+ stamp (wrapped ts2 d) +:+ LF.
Proof.
  intros (p1 & p2 & ts1 & ts2 & offset & t1 & t2 & new1 & new2 &
          Hsplit & H1 & H2 & Hoff & Ha1 & Hf1 & Ha2 & Hf2 & ->)%increment_line_Ok.
  exists p1, p2, ts1, ts2. repeat (split; [assumption|]).
  rewrite (datetime_add_Ok _ _ _ _ _ _ H1 Hoff Ha1) in Hf1.
  rewrite (datetime_add_Ok _ _ _ _ _ _ H2 Hoff Ha2) in Hf2.
  rewrite strftime_default in Hf1, Hf2. now injection Hf1 as <-; injection Hf2 as <-.
Qed.

(** Transforming a line that is already in the transformer's form. *)
Lemma increment_line_canonical a b ms :
  well_formed a -> well_formed b -> MIN_OFFSET <= ms <= MAX_OFFSET ->
  increment_line (stamp a +:+ " --> " +:+ stamp b +:+ LF) ms DEFAULT_FORMAT
  = Ok (stamp (at_time ORDINAL_1900 ((time_of_day a + 1000 * ms) mod DAY))
        +:+ " --> " +:+
        stamp (at_time ORDINAL_1900 ((time_of_day b + 1000 * ms) mod DAY))
        +:+ LF).
Proof.
  intros Ha Hb Hms.
  rewrite (increment_line_wraps _ ms DEFAULT_FORMAT
             (stamp a +:+ " ") (" " +:+ stamp b +:+ LF)
             (mk_datetime ORDINAL_1900 (hour a) (minute a) (second a) (microsecond a))
             (mk_datetime ORDINAL_1900 (hour b) (minute b) (second b) (microsecond b))).
  - rewrite !strftime_default. reflexivity.
  - apply split_canonical; apply dashless_stamp.
  - rewrite strip_stamp_left. now apply strptime_stamp.
  - rewrite strip_stamp_right. now apply strptime_stamp.
  - assumption.
Qed.

(** * Reading back what was written *)

Lemma write_lines_from acc ls :
  fold_left (fun content line => content +:+ line) ls acc
  = acc +:+ write_lines ls.
Proof.
  unfold write_lines. revert acc. induction ls as [|l ls IH]; intros acc; cbn [fold_left].
  - now rewrite append_nil_r.
  - rewrite IH, (IH ("" +:+ l)), append_nil_l. now rewrite append_assoc.
Qed.

Lemma write_lines_cons l ls : write_lines (l :: ls) = l +:+ write_lines ls.
Proof.
  unfold write_lines at 1. cbn [fold_left]. now rewrite write_lines_from, append_nil_l.
Qed.

Lemma lines_of_cons c rest :
  lines_of (String c rest) =
  if Ascii.eqb c "010" then String c "" :: lines_of rest
  else Str.cons_head c (lines_of rest).
Proof. reflexivity. Qed.

Lemma newline_free_cons c s :
  newline_free (String c s) = inline c && newline_free s.
Proof. reflexivity. Qed.

Lemma inline_not_LF c : inline c = true -> Ascii.eqb c "010" = false.
Proof. unfold inline. now intros [->%negb_true_iff _]%andb_true_iff. Qed.

Lemma inline_not_CR c : inline c = true -> Ascii.eqb c "013" = false.
Proof. unfold inline. now intros [_ ->%negb_true_iff]%andb_true_iff. Qed.

Lemma lines_of_unterminated l :
  l <> "" -> newline_free l = true -> lines_of l = [l].
Proof.
  induction l as [|c l IH]; intros Hne Hfree; [contradiction|].
  rewrite newline_free_cons in Hfree.
  apply andb_true_iff in Hfree as [Hc%inline_not_LF Hl].
  rewrite lines_of_cons, Hc. destruct l as [|d l]; [reflexivity|].
  now rewrite IH.
Qed.

Lemma lines_of_terminated body rest :
  newline_free body = true ->
  lines_of (body +:+ LF +:+ rest) = (body +:+ LF) :: lines_of rest.
Proof.
  induction body as [|c body IH]; intros Hfree.
  - reflexivity.
  - rewrite newline_free_cons in Hfree.
    apply andb_true_iff in Hfree as [Hc%inline_not_LF Hb].
    rewrite !append_cons, lines_of_cons, Hc, (IH Hb). reflexivity.
Qed.

(** What the text layer hands over has no carriage return left. *)
Lemma universal_newlines_cr_free content :
  cr_free (universal_newlines content) = true /\
  forall c, cr_free (universal_newlines (String c content)) = true.
Proof.
  unfold cr_free. induction content as [|d content [IH1 IH2]].
  - split; [reflexivity|]. intros c. cbn [universal_newlines].
    destruct (Ascii.eqb c "013") eqn:Hc; [reflexivity|].
    cbn [all_in]. now rewrite Hc.
  - split; [apply IH2|]. intros c.
    change (universal_newlines (String c (String d content)))
      with (if Ascii.eqb c "013"
            then if Ascii.eqb d "010"
                 then String "010" (universal_newlines content)
                 else String "010" (universal_newlines (String d content))
            else String c (universal_newlines (String d content))).
    destruct (Ascii.eqb c "013") eqn:Hc.
    + destruct (Ascii.eqb d "010"); cbn [all_in]; [exact IH1 | apply IH2].
    + cbn [all_in]. rewrite Hc. apply IH2.
Qed.

(** A text without carriage returns arrives as it is. *)
Lemma universal_newlines_id text :
  cr_free text = true -> universal_newlines text = text.
Proof.
  unfold cr_free. induction text as [|c text IH]; intros H; [reflexivity|].
  cbn [all_in] in H. apply andb_true_iff in H as [Hc%negb_true_iff Ht].
  cbn [universal_newlines]. rewrite Hc. now rewrite IH.
Qed.

Lemma lines_of_proper text : cr_free text = true -> proper (lines_of text).
Proof.
  unfold cr_free. induction text as [|c text IH]; intros H; [exact I|].
  cbn [all_in] in H. apply andb_true_iff in H as [Hcr Ht].
  specialize (IH Ht).
  rewrite lines_of_cons. destruct (Ascii.eqb c "010") eqn:Hc.
  - apply Ascii.eqb_eq in Hc as ->.
    assert (Hterm : terminated (String "010" "")) by (exists ""; split; reflexivity).
    destruct (lines_of text); cbn [proper]; auto.
  - assert (Hin : inline c = true) by (unfold inline; now rewrite Hc, Hcr).
    destruct (lines_of text) as [|l [|l' ls]]; cbn [Str.cons_head proper] in IH |- *.
    + right. split; [discriminate|]. rewrite newline_free_cons. now rewrite Hin.
    + destruct IH as [(body & -> & Hb)|[Hne Hfree]].
      * left. exists (String c body). split; [reflexivity|].
        rewrite newline_free_cons. now rewrite Hin, Hb.
      * right. split; [discriminate|].
        rewrite newline_free_cons. now rewrite Hin, Hfree.
    + destruct IH as [(body & -> & Hb) IH]. split; [|exact IH].
      exists (String c body). split; [reflexivity|].
      rewrite newline_free_cons. now rewrite Hin, Hb.
Qed.

Lemma readlines_proper content : proper (readlines content).
Proof. apply lines_of_proper, universal_newlines_cr_free. Qed.

Lemma newline_free_cr_free s : newline_free s = true -> cr_free s = true.
Proof.
  unfold cr_free. induction s as [|c s IH]; [reflexivity|].
  rewrite newline_free_cons. intros [Hc%inline_not_CR Hs]%andb_true_iff.
  cbn [all_in]. now rewrite Hc, IH.
Qed.

Lemma cr_free_app a b : cr_free (a +:+ b) = cr_free a && cr_free b.
Proof. apply all_in_app. Qed.

Lemma terminated_cr_free l : terminated l -> cr_free l = true.
Proof.
  intros (body & -> & Hb). rewrite cr_free_app.
  now rewrite (newline_free_cr_free _ Hb).
Qed.

Lemma proper_cr_free ls : proper ls -> cr_free (write_lines ls) = true.
Proof.
  induction ls as [|l ls IH]; intros H; [reflexivity|].
  rewrite write_lines_cons, cr_free_app. destruct ls as [|l' ls].
  - rewrite andb_true_r. destruct H as [H|[_ H]].
    + now apply terminated_cr_free.
    + now apply newline_free_cr_free.
  - destruct H as [Hl H]. now rewrite (terminated_cr_free _ Hl), IH.
Qed.

Lemma lines_of_write_lines ls : proper ls -> lines_of (write_lines ls) = ls.
Proof.
  induction ls as [|l ls IH]; intros H; [reflexivity|].
  rewrite write_lines_cons. destruct ls as [|l' ls].
  - change (write_lines []) with "". rewrite append_nil_r.
    destruct H as [(body & -> & Hb)|[Hne Hfree]].
    + rewrite <- (append_nil_r (body +:+ LF)), append_assoc.
      rewrite lines_of_terminated by assumption. now rewrite append_nil_r.
    + now apply lines_of_unterminated.
  - destruct H as [(body & -> & Hb) H]. rewrite append_assoc.
    rewrite lines_of_terminated by assumption. now rewrite IH.
Qed.

(** A well-formed list of lines, once written, reads back as itself. *)
Lemma readlines_write_lines ls : proper ls -> readlines (write_lines ls) = ls.
Proof.
  intros H. unfold readlines.
  rewrite universal_newlines_id by now apply proper_cr_free.
  now apply lines_of_write_lines.
Qed.

Lemma newline_free_app a b :
  newline_free (a +:+ b) = newline_free a && newline_free b.
Proof. apply all_in_app. Qed.

Lemma inline_digit d : 0 <= d < 10 -> inline (Str.digit d) = true.
Proof. intros Hd. by_cases d 10%nat ltac:(reflexivity). Qed.

Lemma newline_free_fmt02 n : newline_free (Str.fmt02 n) = true.
Proof.
  unfold Str.fmt02, newline_free. cbn [all_in].
  rewrite !inline_digit by (apply Z.mod_pos_bound; lia). reflexivity.
Qed.

Lemma newline_free_fmt06 n : newline_free (Str.fmt06 n) = true.
Proof.
  unfold Str.fmt06, Str.fmt02, newline_free. cbn [all_in].
  rewrite !inline_digit by (apply Z.mod_pos_bound; lia). reflexivity.
Qed.

Lemma newline_free_stamp dt : newline_free (stamp dt) = true.
Proof.
  unfold stamp.
  now rewrite !newline_free_app, !newline_free_fmt02, newline_free_fmt06.
Qed.

(** ** Formats without a newline *)

Lemma directive_token_inline d t :
  directive_token d = Some t -> inline_token t = true.
Proof.
  unfold directive_token.
  repeat match goal with
         | |- context [if ?b then _ else _] => destruct b
         end; intros [= <-]; reflexivity.
Qed.

Lemma cons_space_inline c toks :
  inline c = true -> forallb inline_token toks = true ->
  forallb inline_token (cons_space c toks) = true.
Proof.
  intros Hc Ht. destruct toks as [|[a|ws|d] toks]; cbn [cons_space forallb] in *;
    cbn [inline_token]; rewrite ?newline_free_cons, Hc; exact Ht.
Qed.

Lemma tokenize_from_inline whole fmt :
  (forall toks, tokenize_from whole fmt = Ok toks -> newline_free fmt = true ->
     forallb inline_token toks = true) /\
  (forall c toks, tokenize_from whole (String c fmt) = Ok toks ->
     newline_free (String c fmt) = true -> forallb inline_token toks = true).
Proof.
  induction fmt as [|d fmt [IH1 IH2]].
  - split; [now intros toks [= <-]|]. intros c toks. cbn.
    destruct (Ascii.eqb c "%"); [discriminate|].
    rewrite andb_true_r. intros H Hc.
    destruct (Str.isspace c).
    + injection H as <-. cbn. now rewrite Hc.
    + destruct (_ && _); [|discriminate]. injection H as <-. cbn. now rewrite Hc.
  - split; [apply IH2|]. intros c toks. rewrite tokenize_from_cons.
    rewrite newline_free_cons. intros H [Hc Hrest]%andb_true_iff.
    destruct (Ascii.eqb c "%").
    + destruct (directive_token d) as [t|] eqn:Hd;
        [|destruct (uncovered d); discriminate].
      bind_cases H. injection H as <-. cbn [forallb].
      rewrite (directive_token_inline _ _ Hd).
      rewrite newline_free_cons in Hrest.
      apply andb_true_iff in Hrest as [_ Hrest]. now apply IH1.
    + destruct (Str.isspace c).
      * bind_cases H. injection H as <-.
        apply cons_space_inline; [assumption|]. now apply (IH2 d).
      * destruct (_ && _); [|discriminate]. bind_cases H. injection H as <-.
        cbn [forallb inline_token]. rewrite Hc. now apply (IH2 d).
Qed.

Lemma render_all_inline dt toks :
  forallb inline_token toks = true -> newline_free (render_all dt toks) = true.
Proof.
  induction toks as [|t toks IH]; [reflexivity|].
  cbn [forallb render_all]. intros [Ht Hrest]%andb_true_iff.
  rewrite newline_free_app, (IH Hrest), andb_true_r.
  destruct t as [c|ws|[| | |]]; cbn [render inline_token] in *.
  - rewrite newline_free_cons. now rewrite Ht.
  - exact Ht.
  - apply newline_free_fmt02.
  - apply newline_free_fmt02.
  - apply newline_free_fmt02.
  - apply newline_free_fmt06.
Qed.

(** Under a format without a newline, what [strftime] returns has none. *)
Lemma strftime_inline t fmt new :
  newline_free fmt = true -> strftime t fmt = Ok new -> newline_free new = true.
Proof.
  unfold strftime, tokenize. intros Hfmt H.
  destruct (tokenize_from fmt fmt) as [toks|] eqn:E; cbn [mbind result_bind] in H;
    [|discriminate].
  injection H as <-. apply render_all_inline.
  now apply (proj1 (tokenize_from_inline fmt fmt)).
Qed.

(** Under a format without a newline the loop turns a terminated line
    into a terminated line, and an unterminated last line into a line
    that may still end a file. *)
Lemma appended_terminated l l' offset_ms fmt :
  newline_free fmt = true ->
  appended l offset_ms fmt = Ok l' ->
  (terminated l -> terminated l') /\
  (l <> "" /\ newline_free l = true ->
   terminated l' \/ (l' <> "" /\ newline_free l' = true)).
Proof.
  intros Hfmt. unfold appended. destruct (Str.contains RANGE_MARKER l).
  - intros (p1 & p2 & ts1 & ts2 & offset & t1 & t2 & new1 & new2 &
            _ & _ & _ & _ & _ & Hf1 & _ & Hf2 & ->)%increment_line_Ok.
    assert (Ht : terminated (new1 +:+ " --> " +:+ new2 +:+ LF)).
    { exists (new1 +:+ " --> " +:+ new2).
      split; [now rewrite !append_assoc|].
      rewrite !newline_free_app.
      now rewrite (strftime_inline _ _ _ Hfmt Hf1), (strftime_inline _ _ _ Hfmt Hf2). }
    auto.
  - intros [= <-]. auto.
Qed.

Lemma transform_proper offset_ms fmt f lines :
  newline_free fmt = true ->
  Forall2 (fun l l' => appended l offset_ms fmt = Ok l') f lines ->
  proper f -> proper lines.
Proof.
  intros Hfmt. induction 1 as [|l l' f lines Hl Hall IH]; intros Hp; [exact I|].
  destruct (appended_terminated _ _ _ _ Hfmt Hl) as [Ht Hlast].
  destruct Hall as [|x x' f lines Hx Hall].
  - cbn [proper] in Hp |- *. destruct Hp as [Hp|Hp]; auto.
  - destruct Hp as [Hp1 Hp2]. split; [apply Ht, Hp1 | apply IH, Hp2].
Qed.

Lemma transform_default_proper offset_ms f lines :
  Forall2 (fun l l' => appended l offset_ms DEFAULT_FORMAT = Ok l') f lines ->
  proper f -> proper lines.
Proof. now apply transform_proper. Qed.

(** Under a format without a newline the file that was written reads
    back as the very lines the loop appended: it has as many lines as the
    input. *)
Lemma output_reads_back srt out offset_ms fmt
    (fs fs' : gmap string string) content :
  newline_free fmt = true ->
  fs !! srt = Some content ->
  generate_new_srt_file srt out offset_ms fmt fs = (Ok (), fs') ->
  exists written,
    fs' = <[out := written]> fs /\
    Forall2 (fun l l' => appended l offset_ms fmt = Ok l')
            (readlines content) (readlines written) /\
    length (readlines written) = length (readlines content).
Proof.
  intros Hfmt Hfs (content' & lines & Hfs' & Hall & ->)%generate_Ok.
  assert (content' = content) as -> by congruence.
  exists (write_lines lines). split; [reflexivity|].
  rewrite readlines_write_lines.
  - split; [assumption|]. symmetry. eapply Forall2_length, Hall.
  - eapply transform_proper; [exact Hfmt | exact Hall | apply readlines_proper].
Qed.

Lemma default_output_reads_back srt out offset_ms
    (fs fs' : gmap string string) content :
  fs !! srt = Some content ->
  generate_new_srt_file srt out offset_ms DEFAULT_FORMAT fs = (Ok (), fs') ->
  exists written,
    fs' !! out = Some written /\
    Forall2 (fun l l' => appended l offset_ms DEFAULT_FORMAT = Ok l')
            (readlines content) (readlines written) /\
    length (readlines written) = length (readlines content).
Proof.
  intros Hfs Hrun.
  destruct (output_reads_back srt out offset_ms DEFAULT_FORMAT fs fs' content
              eq_refl Hfs Hrun) as (written & -> & Hall & Hlen).
  exists written. split; [apply lookup_insert_eq | auto].
Qed.

(** * The specification's claims *)

(** ** Line preservation *)

(** The lines of a successful run: under a format without a newline the
    written file has the lines of the input, each as the loop appended
    it. *)
Lemma written_lines srt out offset_ms fmt
    (fs fs' : gmap string string) content :
  newline_free fmt = true ->
  fs !! srt = Some content ->
  generate_new_srt_file srt out offset_ms fmt fs = (Ok (), fs') ->
  exists written,
    fs' !! out = Some written /\
    length (readlines written) = length (readlines content) /\
    forall i line, readlines content !! i = Some line ->
      exists new_line,
        readlines written !! i = Some new_line /\
        appended line offset_ms fmt = Ok new_line.
Proof.
  intros Hfmt Hfs Hrun.
  destruct (output_reads_back _ _ _ _ _ _ _ Hfmt Hfs Hrun)
    as (written & -> & Hall & Hlen).
  exists written. split; [apply lookup_insert_eq|]. split; [assumption|].
  intros i line Hi. eapply Forall2_step_lookup; eassumption.
Qed.

(** C1, as the specification states it, fails, in three ways.  A time
    format may contain a newline: then the one line of the input is
    written as three.  A line that ends in a carriage return and a line
    feed is written with the line feed alone, although it does not
    contain the marker.  And a file whose range lines all parse has no
    output at all when the shift leaves the range of dates. *)
Lemma line_count_can_change :
  (let content := "12 30 --> 13 40" +:+ LF in
   let written := "12" +:+ LF +:+ "30 --> 13" +:+ LF +:+ "40" +:+ LF in
   generate_new_srt_file "in.srt" "out.srt" 0 ("%H" +:+ LF +:+ "%M")
     {[ "in.srt" := content ]}
   = (Ok (), {[ "in.srt" := content; "out.srt" := written ]}) /\
   length (readlines content) = 1%nat /\ length (readlines written) = 3%nat) /\
  (let content := "Hello world" +:+ CR +:+ LF in
   Str.contains RANGE_MARKER content = false /\
   generate_new_srt_file "in.srt" "out.srt" 1500 DEFAULT_FORMAT
     {[ "in.srt" := content ]}
   = (Ok (), {[ "in.srt" := content; "out.srt" := "Hello world" +:+ LF ]})) /\
  (let line := "00:00:01,000 --> 00:00:03,500" +:+ LF in
   strptime "00:00:01,000" DEFAULT_FORMAT
     = Ok (mk_datetime ORDINAL_1900 0 0 1 0) /\
   strptime "00:00:03,500" DEFAULT_FORMAT
     = Ok (mk_datetime ORDINAL_1900 0 0 3 500000) /\
   generate_new_srt_file "in.srt" "out.srt" 300000000000000 DEFAULT_FORMAT
     {[ "in.srt" := line ]}
   = (Raise OverflowError, {[ "in.srt" := line ]})).
Proof. cbv zeta. repeat split; vm_compute; reflexivity. Qed.

(** C1, amended.  Whenever the shift succeeds under a time format that
    contains neither a line feed nor a carriage return, the file it
    writes has, read line by line, exactly as many lines as the input, in
    the same order: its i-th line is what the loop appends for the i-th
    input line as the text layer read it, and it differs from that line
    only if the line contains the range marker. *)
Theorem shift_preserves_lines srt out offset_ms fmt
    (fs fs' : gmap string string) content :
  newline_free fmt = true ->
  fs !! srt = Some content ->
  generate_new_srt_file srt out offset_ms fmt fs = (Ok (), fs') ->
  exists written,
    fs' !! out = Some written /\
    length (readlines written) = length (readlines content) /\
    forall i line, readlines content !! i = Some line ->
      exists new_line,
        readlines written !! i = Some new_line /\
        appended line offset_ms fmt = Ok new_line /\
        (new_line <> line -> Str.contains RANGE_MARKER line = true).
Proof.
  intros Hfmt Hfs Hrun.
  destruct (written_lines _ _ _ _ _ _ _ Hfmt Hfs Hrun)
    as (written & Hout & Hlen & Hlines).
  exists written. split; [assumption|]. split; [assumption|].
  intros i line Hi. destruct (Hlines i line Hi) as (new_line & Hnew & Hstep).
  exists new_line. split; [assumption|]. split; [assumption|].
  intros Hne. destruct (Str.contains RANGE_MARKER line) eqn:Hc; [reflexivity|].
  rewrite (appended_plain _ _ _ Hc) in Hstep. congruence.
Qed.

Lemma shift_preserves_lines_witness :
  exists written,
    snd (generate_new_srt_file "in.srt" "out.srt" 1500 DEFAULT_FORMAT sample_fs)
      !! "out.srt" = Some written /\
    length (readlines written) = length (readlines sample_srt) /\
    forall i line, readlines sample_srt !! i = Some line ->
      exists new_line,
        readlines written !! i = Some new_line /\
        appended line 1500 DEFAULT_FORMAT = Ok new_line /\
        (new_line <> line -> Str.contains RANGE_MARKER line = true).
Proof.
  apply (shift_preserves_lines "in.srt" "out.srt" 1500 DEFAULT_FORMAT sample_fs
           (snd (generate_new_srt_file "in.srt" "out.srt" 1500 DEFAULT_FORMAT
                   sample_fs)) sample_srt);
    vm_compute; reflexivity.
Defined.

(** C2, as the specification states it, fails.  A line without the marker
    that ends in a carriage return and a line feed, or in a carriage
    return alone, is written with a line feed in their place: the output
    is not the input byte for byte.  And under a time format with a
    newline in it the lines of the output no longer correspond to those
    of the input: the second line of the output is not the second line
    of the input, which has no marker. *)
Lemma terminator_is_rewritten :
  (let content := "1" +:+ CR +:+ LF +:+ "Hello" +:+ CR +:+ "world" in
   (forall line, In line (readlines content) ->
      Str.contains RANGE_MARKER line = false) /\
   generate_new_srt_file "in.srt" "out.srt" 1500 DEFAULT_FORMAT
     {[ "in.srt" := content ]}
   = (Ok (), {[ "in.srt" := content;
                "out.srt" := "1" +:+ LF +:+ "Hello" +:+ LF +:+ "world" ]})) /\
  (let content := "12 30 --> 13 40" +:+ LF +:+ "Hello" +:+ LF in
   let written := "12" +:+ LF +:+ "30 --> 13" +:+ LF +:+ "40" +:+ LF
                  +:+ "Hello" +:+ LF in
   generate_new_srt_file "in.srt" "out.srt" 0 ("%H" +:+ LF +:+ "%M")
     {[ "in.srt" := content ]}
   = (Ok (), {[ "in.srt" := content; "out.srt" := written ]}) /\
   readlines content !! 1%nat = Some ("Hello" +:+ LF) /\
   readlines written !! 1%nat = Some ("30 --> 13" +:+ LF)).
Proof.
  cbv zeta. repeat split; try (vm_compute; reflexivity).
  intros line Hin. vm_compute in Hin.
  destruct Hin as [<-|[<-|[<-|[]]]]; vm_compute; reflexivity.
Qed.

(** C2, amended.  Whenever the shift succeeds under a time format that
    contains neither a line feed nor a carriage return, a line of the
    input that does not contain [-->] is, at the same place in the
    written file, the line as the text layer read it: the same text, with
    a line feed as its terminator where the input had a line feed, a
    carriage return or both, and with none where the input had none. *)
Theorem plain_lines_pass_through srt out offset_ms fmt
    (fs fs' : gmap string string) content :
  newline_free fmt = true ->
  fs !! srt = Some content ->
  generate_new_srt_file srt out offset_ms fmt fs = (Ok (), fs') ->
  exists written,
    fs' !! out = Some written /\
    forall i line,
      readlines content !! i = Some line ->
      Str.contains RANGE_MARKER line = false ->
      readlines written !! i = Some line.
Proof.
  intros Hfmt Hfs Hrun.
  destruct (written_lines _ _ _ _ _ _ _ Hfmt Hfs Hrun)
    as (written & Hout & _ & Hlines).
  exists written. split; [assumption|].
  intros i line Hi Hc. destruct (Hlines i line Hi) as (new_line & Hnew & Hstep).
  rewrite (appended_plain _ _ _ Hc) in Hstep. congruence.
Qed.

Lemma plain_lines_pass_through_witness :
  exists written,
    snd (generate_new_srt_file "in.srt" "out.srt" 1500 DEFAULT_FORMAT sample_fs)
      !! "out.srt" = Some written /\
    readlines written !! 2%nat = Some ("Hello world" +:+ LF).
Proof.
  destruct (plain_lines_pass_through "in.srt" "out.srt" 1500 DEFAULT_FORMAT sample_fs
              (snd (generate_new_srt_file "in.srt" "out.srt" 1500 DEFAULT_FORMAT sample_fs))
              sample_srt) as (written & H1 & H2).
  - vm_compute. reflexivity.
  - vm_compute. reflexivity.
  - vm_compute. reflexivity.
  - exists written. split; [exact H1|].
    apply H2; vm_compute; reflexivity.
Defined.

(** ** Parse failures *)

(** C10.  If [increment_line] raises on any range line of the input, the
    whole call raises and the file system is left exactly as it was: the
    output path is neither created nor modified. *)
Theorem failure_leaves_output_untouched srt out offset_ms fmt
    (fs : gmap string string) content i line e :
  fs !! srt = Some content ->
  readlines content !! i = Some line ->
  Str.contains RANGE_MARKER line = true ->
  increment_line line offset_ms fmt = Raise e ->
  exists e', generate_new_srt_file srt out offset_ms fmt fs = (Raise e', fs).
Proof.
  intros Hfs Hi Hc He. rewrite <- (appended_range _ _ _ Hc) in He.
  destruct (exists_first_raise offset_ms fmt _ i line e Hi He)
    as (i0 & line0 & e0 & _ & Hi0 & He0 & Hbefore).
  exists e0. eapply generate_first_failure; eassumption.
Qed.

Lemma failure_leaves_output_untouched_witness :
  exists e',
    generate_new_srt_file "in.srt" "out.srt" 1500 DEFAULT_FORMAT broken_fs
    = (Raise e', broken_fs).
Proof.
  apply (failure_leaves_output_untouched "in.srt" "out.srt" 1500 DEFAULT_FORMAT
           broken_fs broken_srt 2%nat ("bad --> 00:00:04,000" +:+ LF)
           (NoMatch "bad" DEFAULT_FORMAT)); vm_compute; reflexivity.
Defined.




(** C9, as the specification states it, fails: two inputs whose offending
    lines differ in index and in raw text make [main] raise the very same
    error value, so no index and no raw text can be read off it. *)
Lemma error_does_not_identify_line :
  ~ exists (index_of : exn -> nat) (text_of : exn -> string),
      forall (a : args) (fs : gmap string string) e content i line,
        main a fs = (Raise e, fs) ->
        fs !! input_file a = Some content ->
        first_failure 0 (readlines content) (delta a) (format_of a)
          = Some (i, line) ->
        index_of e = i /\ text_of e = line.
Proof.
  intros (index_of & text_of & H).
  pose (a := mk_args "in.srt" "out.srt" 1500 None).
  pose (c1 := "bad --> 00:00:04,000" +:+ LF).
  pose (c2 := "7" +:+ LF +:+ "bad  -->  00:00:04,000" +:+ LF).
  destruct (H a {[ "in.srt" := c1 ]} (ParseFailure (NoMatch "bad" DEFAULT_FORMAT))
              c1 0%nat c1) as [H1 _]; try (vm_compute; reflexivity).
  destruct (H a {[ "in.srt" := c2 ]} (ParseFailure (NoMatch "bad" DEFAULT_FORMAT))
              c2 1%nat ("bad  -->  00:00:04,000" +:+ LF)) as [H2 _];
    try (vm_compute; reflexivity).
  congruence.
Qed.

(** C9, amended.  When [main] raises its parse failure, the error value is
    the fixed wrapper around the [ValueError] that [increment_line] raised
    on the first line that failed, and nothing was written.  That
    [ValueError] carries no line index and not the line: it records
    nothing (too many values, second out of range), or only the format (a
    stray [%], a bad directive), or the stripped text of the part that
    did not match together with the format, or the non-empty end of a
    stripped part that was left unconverted. *)
Theorem parse_failure_payload (a : args) (fs fs' : gmap string string) e :
  main a fs = (Raise (ParseFailure e), fs') ->
  fs' = fs /\
  exists content i line,
    fs !! input_file a = Some content /\
    first_failure 0 (readlines content) (delta a) (format_of a) = Some (i, line) /\
    increment_line line (delta a) (format_of a) = Raise e /\
    (e = TooManyValues \/ e = SecondOutOfRange \/
     e = StrayPercent (format_of a) \/ e = BadDirective (format_of a) \/
     exists p, In p (Str.split RANGE_MARKER line) /\
       (e = NoMatch (Str.strip p) (format_of a) \/
        exists pre rest,
          Str.strip p = pre +:+ rest /\ rest <> "" /\ e = UnconvertedData rest)).
Proof.
  unfold main.
  destruct (generate_new_srt_file _ _ _ _ fs) as [[u|err] fs0] eqn:G; [discriminate|].
  destruct (is_ValueError err) eqn:HV; intros [= -> ->]; [|discriminate].
  apply generate_Raise in G as [-> [[_ ->]|(content & Hfs & Hloop)]]; [discriminate|].
  split; [reflexivity|].
  apply transform_loop_Raise in Hloop as (i & line & Hi & He & Hbefore).
  exists content, i, line. split; [assumption|]. split.
  { apply (first_failure_spec _ _ _ 0%nat i line e); assumption. }
  apply appended_Raise in He as [Hm He]. split; [assumption|].
  destruct (increment_line_Raise _ _ _ _ He) as [(p & Hp & Hpe)|[->|[Hlen| ->]]].
  - destruct (strptime_Raise _ _ _ Hpe) as [Hc|[_ [->|[[rest ->]| ->]]]].
    + apply compile_Raise in Hc as [->|[->|[->| ->]]]; [auto | auto | discriminate..].
    + eauto 10.
    + destruct (strptime_unconverted _ _ _ Hpe) as (Hne & pre & Hpre).
      do 4 right. exists p. split; [assumption|]. right. exists pre, rest. auto.
    + auto.
  - auto.
  - apply split_marker_length in Hm; [lia | discriminate].
  - discriminate.
Qed.

Lemma parse_failure_payload_witness :
  let e := UnconvertedData "7" in
  let fs : gmap string string :=
    {[ "in.srt" := "00:00:01,000 --> 00:00:03,1234567" +:+ LF ]} in
  fs = fs /\
  exists content i line,
    fs !! "in.srt" = Some content /\
    first_failure 0 (readlines content) 1500 DEFAULT_FORMAT = Some (i, line) /\
    increment_line line 1500 DEFAULT_FORMAT = Raise e /\
    (e = TooManyValues \/ e = SecondOutOfRange \/
     e = StrayPercent DEFAULT_FORMAT \/ e = BadDirective DEFAULT_FORMAT \/
     exists p, In p (Str.split RANGE_MARKER line) /\
       (e = NoMatch (Str.strip p) DEFAULT_FORMAT \/
        exists pre rest,
          Str.strip p = pre +:+ rest /\ rest <> "" /\ e = UnconvertedData rest)).
Proof.
  cbv zeta.
  apply (parse_failure_payload (mk_args "in.srt" "out.srt" 1500 None)
           {[ "in.srt" := "00:00:01,000 --> 00:00:03,1234567" +:+ LF ]}
           {[ "in.srt" := "00:00:01,000 --> 00:00:03,1234567" +:+ LF ]}
           (UnconvertedData "7")).
  vm_compute. reflexivity.
Defined.

(** ** The text of a transformed line *)

(** C3, as the specification states it, fails: [%f] is written back with
    six digits, not with the three that were read. *)
Lemma end_to_end_not_three_digits :
  increment_line ("00:00:01,000 --> 00:00:03,500" +:+ LF) 1500 DEFAULT_FORMAT
  <> Ok ("00:00:02,500 --> 00:00:05,000" +:+ LF).
Proof. vm_compute. discriminate. Qed.

(** C3, amended.  With the default format and an offset of +1500 ms the
    line ["00:00:01,000 --> 00:00:03,500\n"] becomes
    ["00:00:02,500000 --> 00:00:05,000000\n"]. *)
Theorem end_to_end_example :
  increment_line ("00:00:01,000 --> 00:00:03,500" +:+ LF) 1500 DEFAULT_FORMAT
  = Ok ("00:00:02,500000 --> 00:00:05,000000" +:+ LF).
Proof. vm_compute. reflexivity. Qed.

(** C7, as the specification states it, fails, whether or not the line
    and the expected text carry a newline. *)
Lemma negative_offset_not_three_digits :
  increment_line ("00:00:05,000 --> 00:00:10,000" +:+ LF) (-3000) DEFAULT_FORMAT
    <> Ok ("00:00:02,000 --> 00:00:07,000" +:+ LF) /\
  increment_line "00:00:05,000 --> 00:00:10,000" (-3000) DEFAULT_FORMAT
    <> Ok ("00:00:02,000 --> 00:00:07,000" +:+ LF) /\
  increment_line "00:00:05,000 --> 00:00:10,000" (-3000) DEFAULT_FORMAT
    <> Ok "00:00:02,000 --> 00:00:07,000".
Proof. repeat split; vm_compute; discriminate. Qed.

(** C7, amended.  With the default format and an offset of -3000 ms the
    line [00:00:05,000 --> 00:00:10,000] becomes
    [00:00:02,000000 --> 00:00:07,000000], followed by a newline. *)
Theorem negative_offset_example :
  increment_line ("00:00:05,000 --> 00:00:10,000" +:+ LF) (-3000) DEFAULT_FORMAT
  = Ok ("00:00:02,000000 --> 00:00:07,000000" +:+ LF).
Proof. vm_compute. reflexivity. Qed.

(** C8, as the specification states it, fails: a last line without a
    terminator comes out with a newline, so the written file ends in a
    newline the input did not have. *)
Lemma unterminated_line_gains_newline :
  let line := "00:00:01,000 --> 00:00:03,500" in
  terminator line = "" /\
  increment_line line 1500 DEFAULT_FORMAT
    <> Ok ("00:00:02,500000" +:+ " --> " +:+ "00:00:05,000000" +:+ terminator line) /\
  generate_new_srt_file "in.srt" "out.srt" 1500 DEFAULT_FORMAT {[ "in.srt" := line ]}
    = (Ok (), {[ "in.srt" := line;
                 "out.srt" := "00:00:02,500000 --> 00:00:05,000000" +:+ LF ]}).
Proof.
  cbv zeta. split; [reflexivity|]. split.
  - vm_compute. discriminate.
  - vm_compute. reflexivity.
Qed.

(** C8, amended.  Every transformed range line is the reformatted shifted
    start timestamp, the separator [" --> "], the reformatted shifted end
    timestamp and then one newline, whatever terminator the line had. *)
Theorem transformed_line_shape line offset_ms fmt out :
  increment_line line offset_ms fmt = Ok out ->
  exists p1 p2 ts1 ts2 offset t1 t2 new1 new2,
    Str.split RANGE_MARKER line = [p1; p2] /\
    strptime (Str.strip p1) fmt = Ok ts1 /\
    strptime (Str.strip p2) fmt = Ok ts2 /\
    timedelta_ms offset_ms = Ok offset /\
    datetime_add ts1 offset = Ok t1 /\ strftime t1 fmt = Ok new1 /\
    datetime_add ts2 offset = Ok t2 /\ strftime t2 fmt = Ok new2 /\
    out = new1 +:+ " --> " +:+ new2 +:+ LF.
Proof. apply increment_line_Ok. Qed.

Lemma transformed_line_shape_witness :
  exists p1 p2 ts1 ts2 offset t1 t2 new1 new2,
    Str.split RANGE_MARKER "00:00:01,000 --> 00:00:03,500" = [p1; p2] /\
    strptime (Str.strip p1) DEFAULT_FORMAT = Ok ts1 /\
    strptime (Str.strip p2) DEFAULT_FORMAT = Ok ts2 /\
    timedelta_ms 1500 = Ok offset /\
    datetime_add ts1 offset = Ok t1 /\ strftime t1 DEFAULT_FORMAT = Ok new1 /\
    datetime_add ts2 offset = Ok t2 /\ strftime t2 DEFAULT_FORMAT = Ok new2 /\
    "00:00:02,500000 --> 00:00:05,000000" +:+ LF = new1 +:+ " --> " +:+ new2 +:+ LF.
Proof.
  apply (transformed_line_shape "00:00:01,000 --> 00:00:03,500" 1500 DEFAULT_FORMAT).
  vm_compute. reflexivity.
Defined.

(** ** Wrap-around *)

(** C5, as the specification states it, fails: the fraction comes back
    with six digits, and an offset large enough to leave the years 1 to
    9999 makes the date arithmetic raise [OverflowError]. *)
Lemma wrap_example_fails :
  increment_line ("23:59:59,000 --> 23:59:59,000" +:+ LF) 2000 "%H:%M:%S,%f"
    <> Ok ("00:00:01,000 --> 00:00:01,000" +:+ LF) /\
  increment_line ("23:59:59,000 --> 23:59:59,000" +:+ LF) 300000000000000
    "%H:%M:%S,%f" = Raise OverflowError.
Proof. split; vm_compute; [discriminate | reflexivity]. Qed.

(** C5, amended.  For an offset between [MIN_OFFSET] and [MAX_OFFSET]
    milliseconds the shift neither clamps nor raises: each timestamp of a
    range line is written as the time of day
    [(parsed time + offset) mod 24 h], whatever date the sum falls on. *)
Theorem shift_wraps_modulo_24h line offset_ms fmt p1 p2 ts1 ts2 :
  Str.split RANGE_MARKER line = [p1; p2] ->
  strptime (Str.strip p1) fmt = Ok ts1 ->
  strptime (Str.strip p2) fmt = Ok ts2 ->
  MIN_OFFSET <= offset_ms <= MAX_OFFSET ->
  increment_line line offset_ms fmt =
  (new1 ← strftime (at_time ORDINAL_1900
                      ((time_of_day ts1 + 1000 * offset_ms) mod DAY)) fmt;
   new2 ← strftime (at_time ORDINAL_1900
                      ((time_of_day ts2 + 1000 * offset_ms) mod DAY)) fmt;
   Ok (new1 +:+ " --> " +:+ new2 +:+ LF)).
Proof.
  intros Hsplit H1 H2 Hms.
  rewrite (increment_line_wraps line offset_ms fmt p1 p2 ts1 ts2) by assumption.
  unfold wrapped.
  now rewrite (strftime_date (ordinal ts1 + _) ORDINAL_1900),
              (strftime_date (ordinal ts2 + _) ORDINAL_1900).
Qed.

Lemma shift_wraps_modulo_24h_witness :
  increment_line ("23:59:59,000 --> 23:59:59,000" +:+ LF) 2000 "%H:%M:%S,%f"
  = Ok ("00:00:01,000000 --> 00:00:01,000000" +:+ LF).
Proof.
  rewrite (shift_wraps_modulo_24h ("23:59:59,000 --> 23:59:59,000" +:+ LF) 2000
             "%H:%M:%S,%f" "23:59:59,000 " (" 23:59:59,000" +:+ LF)
             (mk_datetime ORDINAL_1900 23 59 59 0)
             (mk_datetime ORDINAL_1900 23 59 59 0)).
  - vm_compute. reflexivity.
  - vm_compute. reflexivity.
  - vm_compute. reflexivity.
  - vm_compute. reflexivity.
  - vm_compute. split; discriminate.
Defined.

(** ** Round trip *)

(** C4, as the specification states it, fails, with no 24-hour wrap in
    sight: under the default format a line with three-digit fractions
    comes back with six-digit ones, and under a format that drops the
    fraction the times themselves come back changed. *)
Lemma round_trip_fails :
  (exists out,
     increment_line ("00:00:01,000 --> 00:00:03,500" +:+ LF) 1500 DEFAULT_FORMAT
       = Ok out /\
     increment_line out (-1500) DEFAULT_FORMAT
       = Ok ("00:00:01,000000 --> 00:00:03,500000" +:+ LF) /\
     increment_line out (-1500) DEFAULT_FORMAT
       <> Ok ("00:00:01,000 --> 00:00:03,500" +:+ LF)) /\
  (exists out,
     increment_line ("00:00:01 --> 00:00:03" +:+ LF) 1500 "%H:%M:%S" = Ok out /\
     increment_line out (-1500) "%H:%M:%S"
       = Ok ("00:00:00 --> 00:00:02" +:+ LF)).
Proof.
  split.
  - exists ("00:00:02,500000 --> 00:00:05,000000" +:+ LF).
    split; [vm_compute; reflexivity|]. split; [vm_compute; reflexivity|].
    vm_compute. discriminate.
  - exists ("00:00:02 --> 00:00:04" +:+ LF).
    split; vm_compute; reflexivity.
Qed.

(** C4, amended.  Under the default format, for every range line and
    every offset [d] of at most [-MIN_OFFSET] milliseconds either way
    (so for every [d] that causes no 24-hour wrap, and across wraps too),
    transforming with [+d] and then with [-d] succeeds and yields the
    line as the transformer writes it unshifted; that is the original
    text exactly when the line is itself something the transformer
    wrote. *)
Theorem round_trip_default line d out :
  MIN_OFFSET <= d <= - MIN_OFFSET ->
  increment_line line d DEFAULT_FORMAT = Ok out ->
  exists canonical,
    increment_line line 0 DEFAULT_FORMAT = Ok canonical /\
    increment_line out (- d) DEFAULT_FORMAT = Ok canonical /\
    (forall line0 d0,
       increment_line line0 d0 DEFAULT_FORMAT = Ok line -> canonical = line).
Proof.
  intros Hd Hout.
  assert (Hd' : MIN_OFFSET <= d <= MAX_OFFSET /\ MIN_OFFSET <= - d <= MAX_OFFSET /\
                MIN_OFFSET <= 0 <= MAX_OFFSET)
    by (unfold MIN_OFFSET, MAX_OFFSET in *; lia).
  destruct Hd' as (Hd1 & Hd2 & Hd0).
  destruct (increment_line_default_Ok _ _ _ Hout)
    as (p1 & p2 & ts1 & ts2 & Hsplit & H1 & H2 & ->).
  destruct (strptime_well_formed _ _ _ H1) as [Hwf1 _].
  destruct (strptime_well_formed _ _ _ H2) as [Hwf2 _].
  assert (Hzero : forall ts, well_formed ts ->
    (time_of_day ts + 1000 * 0) mod DAY = time_of_day ts).
  { intros ts (Hh & Hm & Hs & Hus). unfold time_of_day, DAY.
    Z.to_euclidean_division_equations. lia. }
  assert (Hthere_back : forall ts, well_formed ts ->
    ((time_of_day ts + 1000 * d) mod DAY + 1000 * - d) mod DAY = time_of_day ts).
  { intros ts (Hh & Hm & Hs & Hus). unfold time_of_day, DAY.
    Z.to_euclidean_division_equations. lia. }
  assert (Hunshifted :
    increment_line line 0 DEFAULT_FORMAT
    = Ok (stamp ts1 +:+ " --> " +:+ stamp ts2 +:+ LF)).
  { rewrite (increment_line_wraps line 0 DEFAULT_FORMAT p1 p2 ts1 ts2)
      by assumption.
    rewrite !strftime_default. cbn [mbind result_bind]. rewrite !stamp_wrapped.
    now rewrite !Hzero, !stamp_at_time_of_day by assumption. }
  exists (stamp ts1 +:+ " --> " +:+ stamp ts2 +:+ LF). split; [|split].
  - exact Hunshifted.
  - (* there and back *)
    rewrite increment_line_canonical by (apply well_formed_wrapped || assumption).
    rewrite !time_of_day_wrapped.
    now rewrite !Hthere_back, !stamp_at_time_of_day by assumption.
  - (* a line the transformer wrote is its own unshifted form *)
    intros line0 d0 Hline.
    destruct (increment_line_default_Ok _ _ _ Hline)
      as (q1 & q2 & us1 & us2 & _ & _ & _ & Hcanon).
    assert (Hsame :
      increment_line line 0 DEFAULT_FORMAT
      = Ok (stamp (wrapped us1 d0) +:+ " --> " +:+ stamp (wrapped us2 d0) +:+ LF)).
    { rewrite Hcanon at 1.
      rewrite increment_line_canonical by (apply well_formed_wrapped || assumption).
      now rewrite !Hzero, !stamp_at_time_of_day by apply well_formed_wrapped. }
    rewrite Hunshifted in Hsame. apply Ok_inj in Hsame.
    now rewrite Hsame, <- Hcanon.
Qed.

Lemma round_trip_default_witness :
  exists canonical,
    increment_line ("23:59:59,000000 --> 23:59:59,500000" +:+ LF) 0
      DEFAULT_FORMAT = Ok canonical /\
    increment_line ("00:00:01,000000 --> 00:00:01,500000" +:+ LF) (- 2000)
      DEFAULT_FORMAT = Ok canonical /\
    canonical = "23:59:59,000000 --> 23:59:59,500000" +:+ LF.
Proof.
  destruct (round_trip_default
              ("23:59:59,000000 --> 23:59:59,500000" +:+ LF) 2000
              ("00:00:01,000000 --> 00:00:01,500000" +:+ LF))
    as (canonical & H0 & H1 & H2).
  - vm_compute. split; discriminate.
  - vm_compute. reflexivity.
  - exists canonical. split; [exact H0|]. split; [exact H1|].
    apply (H2 ("23:59:59,000000 --> 23:59:59,500000" +:+ LF) 0).
    vm_compute. reflexivity.
Defined.

(** * Further properties of the program *)

(** ** Copying *)

Lemma write_lines_cons_head c l :
  write_lines (Str.cons_head c l) = String c (write_lines l).
Proof.
  destruct l as [|x l]; cbn [Str.cons_head].
  - reflexivity.
  - now rewrite !write_lines_cons, append_cons.
Qed.

Lemma write_lines_lines_of text : write_lines (lines_of text) = text.
Proof.
  induction text as [|c text IH]; [reflexivity|].
  rewrite lines_of_cons. destruct (Ascii.eqb c "010").
  - now rewrite write_lines_cons, append_single, IH.
  - now rewrite write_lines_cons_head, IH.
Qed.

(** Writing the lines that were read gives the text as the text layer
    presented it. *)
Lemma write_lines_readlines content :
  write_lines (readlines content) = universal_newlines content.
Proof. apply write_lines_lines_of. Qed.

Lemma plain_lines_same offset_ms fmt (f lines : list string) :
  Forall2 (fun l l' => appended l offset_ms fmt = Ok l') f lines ->
  (forall i line, f !! i = Some line -> Str.contains RANGE_MARKER line = false) ->
  lines = f.
Proof.
  induction 1 as [|l l' f lines Hl Hall IH]; intros Hplain; [reflexivity|].
  rewrite (appended_plain l offset_ms fmt) in Hl by apply (Hplain 0%nat l eq_refl).
  injection Hl as <-. f_equal. apply IH.
  intros i line Hi. apply (Hplain (S i)). exact Hi.
Qed.

(** X1.  When a run succeeds on a file none of whose lines contains the
    marker, whatever the offset and the time format, the output file
    holds the text of the input as the text layer read it: every
    character as it was, with a line feed in place of each carriage
    return and line feed or lone carriage return.  A file without
    carriage returns is copied character for character. *)
Theorem plain_file_is_copied srt out offset_ms fmt
    (fs fs' : gmap string string) content :
  fs !! srt = Some content ->
  (forall i line, readlines content !! i = Some line ->
     Str.contains RANGE_MARKER line = false) ->
  generate_new_srt_file srt out offset_ms fmt fs = (Ok (), fs') ->
  fs' = <[out := universal_newlines content]> fs /\
  (cr_free content = true -> fs' = <[out := content]> fs).
Proof.
  intros Hfs Hplain (content' & lines & Hfs' & Hall & ->)%generate_Ok.
  assert (content' = content) as -> by congruence.
  rewrite (plain_lines_same _ _ _ _ Hall Hplain), write_lines_readlines.
  split; [reflexivity|]. intros Hcr. now rewrite universal_newlines_id.
Qed.

Lemma plain_file_is_copied_witness :
  let content := "Hello" +:+ CR +:+ LF +:+ LF +:+ "world" in
  let fs : gmap string string := {[ "in.srt" := content ]} in
  snd (generate_new_srt_file "in.srt" "out.srt" 300000000000000 "%Y%" fs)
    = <["out.srt" := "Hello" +:+ LF +:+ LF +:+ "world"]> fs /\
  (cr_free content = true ->
   snd (generate_new_srt_file "in.srt" "out.srt" 300000000000000 "%Y%" fs)
     = <["out.srt" := content]> fs).
Proof.
  cbv zeta.
  apply (plain_file_is_copied "in.srt" "out.srt" 300000000000000 "%Y%"
           {[ "in.srt" := "Hello" +:+ CR +:+ LF +:+ LF +:+ "world" ]}
           (snd (generate_new_srt_file "in.srt" "out.srt" 300000000000000 "%Y%"
                   {[ "in.srt" := "Hello" +:+ CR +:+ LF +:+ LF +:+ "world" ]}))
           ("Hello" +:+ CR +:+ LF +:+ LF +:+ "world")).
  - vm_compute. reflexivity.
  - intros [|[|[|i]]] line Hi; vm_compute in Hi; try discriminate Hi;
      injection Hi as <-; vm_compute; reflexivity.
  - vm_compute. reflexivity.
Defined.

(** ** Range lines stay range lines *)

Lemma startswith_self sep s : Str.startswith sep (sep +:+ s) = true.
Proof.
  induction sep as [|c sep IH]; [reflexivity|].
  rewrite append_cons. cbn [Str.startswith]. now rewrite Ascii.eqb_refl, IH.
Qed.

Lemma contains_self sep s : Str.contains sep (sep +:+ s) = true.
Proof.
  destruct sep as [|c sep].
  - now destruct s.
  - rewrite append_cons. cbn [Str.contains]. rewrite <- append_cons.
    now rewrite startswith_self.
Qed.

Lemma contains_app_r sep a s :
  Str.contains sep s = true -> Str.contains sep (a +:+ s) = true.
Proof.
  intros H. induction a as [|c a IH]; [assumption|].
  rewrite append_cons. cbn [Str.contains]. rewrite IH. apply orb_true_r.
Qed.

Lemma contains_marker_joined a b :
  Str.contains RANGE_MARKER (a +:+ " --> " +:+ b) = true.
Proof.
  apply contains_app_r.
  change (" --> " +:+ b) with (" " +:+ RANGE_MARKER +:+ " " +:+ b).
  apply contains_app_r, contains_self.
Qed.

(** X4.  The loop never changes which lines are range lines: the line it
    appends contains the marker exactly when the input line does, under
    every time format. *)
Theorem appended_keeps_marker line offset_ms fmt new_line :
  appended line offset_ms fmt = Ok new_line ->
  Str.contains RANGE_MARKER new_line = Str.contains RANGE_MARKER line.
Proof.
  unfold appended. destruct (Str.contains RANGE_MARKER line) eqn:Hm.
  - intros (p1 & p2 & ts1 & ts2 & offset & t1 & t2 & new1 & new2 &
            _ & _ & _ & _ & _ & _ & _ & _ & ->)%increment_line_Ok.
    apply contains_marker_joined.
  - now intros [= <-].
Qed.

Lemma appended_keeps_marker_witness :
  Str.contains RANGE_MARKER ("00:00:02,500000 --> 00:00:05,000000" +:+ LF)
  = Str.contains RANGE_MARKER ("00:00:01,000 --> 00:00:03,500" +:+ LF).
Proof.
  apply (appended_keeps_marker ("00:00:01,000 --> 00:00:03,500" +:+ LF) 1500
           DEFAULT_FORMAT).
  vm_compute. reflexivity.
Defined.

(** ** The exact range of offsets *)

Lemma timedelta_ms_Raise ts ms e :
  well_formed ts -> ordinal ts = ORDINAL_1900 ->
  timedelta_ms ms = Raise e ->
  e = OverflowError /\ date_in_range ts ms = false.
Proof.
  intros (Hh & Hm & Hs & Hus) Hord.
  unfold timedelta_ms, normalize, MAX_DELTA_DAYS.
  destruct (Z.leb_spec (Z.abs (0 + (0 + ms * 1000 / 1000000) / 86400)) 999999999)
    as [|Hbig]; [discriminate|].
  intros [= <-]. split; [reflexivity|].
  unfold date_in_range, wrapped, at_time, time_of_day, DAY, MAXORDINAL,
    ORDINAL_1900 in *.
  cbn [ordinal]. rewrite Hord. apply andb_false_iff.
  destruct (Z.ltb_spec 0 (693596 +
    (((hour ts * 60 + minute ts) * 60 + second ts) * 1000000 + microsecond ts
     + 1000 * ms) / 86400000000)) as [Hpos|]; [right | left; reflexivity].
  apply Z.leb_gt. revert Hbig Hpos. Z.to_euclidean_division_equations. lia.
Qed.

(** X5.  For a range line whose two parts parse, the offset decides the
    outcome exactly: if both shifted timestamps fall on a date between
    0001-01-01 and 9999-12-31 the line is rewritten with the wrapped
    times, and otherwise [increment_line] raises [OverflowError]; there
    is no clamping and no other failure. *)
Theorem increment_line_offset_range line offset_ms fmt p1 p2 ts1 ts2 :
  Str.split RANGE_MARKER line = [p1; p2] ->
  strptime (Str.strip p1) fmt = Ok ts1 ->
  strptime (Str.strip p2) fmt = Ok ts2 ->
  increment_line line offset_ms fmt =
  if date_in_range ts1 offset_ms && date_in_range ts2 offset_ms
  then (new1 ← strftime (wrapped ts1 offset_ms) fmt;
        new2 ← strftime (wrapped ts2 offset_ms) fmt;
        Ok (new1 +:+ " --> " +:+ new2 +:+ LF))
  else Raise OverflowError.
Proof.
  intros Hsplit H1 H2.
  destruct (strptime_well_formed _ _ _ H1) as [Hwf1 Hord1].
  destruct (strptime_well_formed _ _ _ H2) as [Hwf2 Hord2].
  destruct (strptime_Ok_compile _ _ _ H1) as [toks Htoks%compile_Ok_tokenize].
  unfold increment_line, unpack2. rewrite Hsplit, H1. cbn [mbind result_bind].
  rewrite H2. cbn [mbind result_bind].
  destruct (timedelta_ms offset_ms) as [offset|e] eqn:Hoff; cbn [mbind result_bind].
  - rewrite (datetime_add_ms ts1 offset_ms offset Hwf1), (datetime_add_ms ts2 offset_ms offset Hwf2);
      try assumption;
      try (rewrite ?Hord1, ?Hord2; unfold ORDINAL_1900, MAXORDINAL; lia).
    fold (date_in_range ts1 offset_ms). fold (date_in_range ts2 offset_ms).
    destruct (date_in_range ts1 offset_ms); cbn [mbind result_bind andb];
      [|reflexivity].
    rewrite !(strftime_total _ _ _ Htoks). cbn [mbind result_bind].
    destruct (date_in_range ts2 offset_ms); cbn [mbind result_bind];
      [|reflexivity].
    rewrite !(strftime_total _ _ _ Htoks). cbn [mbind result_bind Str.join].
    now rewrite append_assoc.
  - destruct (timedelta_ms_Raise ts1 offset_ms e Hwf1 Hord1 Hoff) as [-> ->].
    reflexivity.
Qed.

Lemma increment_line_offset_range_witness :
  increment_line "00:00:00,000 --> 23:59:59,999" MAX_OFFSET DEFAULT_FORMAT
    = Ok ("00:00:00,000000 --> 23:59:59,999000" +:+ LF) /\
  increment_line "00:00:00,000 --> 23:59:59,999" (MAX_OFFSET + 1) DEFAULT_FORMAT
    = Raise OverflowError.
Proof.
  split.
  - rewrite (increment_line_offset_range "00:00:00,000 --> 23:59:59,999" MAX_OFFSET
               DEFAULT_FORMAT "00:00:00,000 " " 23:59:59,999"
               (mk_datetime ORDINAL_1900 0 0 0 0)
               (mk_datetime ORDINAL_1900 23 59 59 999000));
      vm_compute; reflexivity.
  - rewrite (increment_line_offset_range "00:00:00,000 --> 23:59:59,999"
               (MAX_OFFSET + 1) DEFAULT_FORMAT "00:00:00,000 " " 23:59:59,999"
               (mk_datetime ORDINAL_1900 0 0 0 0)
               (mk_datetime ORDINAL_1900 23 59 59 999000));
      vm_compute; reflexivity.
Defined.

(** ** Reading a written line again *)

Lemma parse_canonical a b :
  well_formed a -> well_formed b ->
  Str.split RANGE_MARKER (stamp a +:+ " --> " +:+ stamp b +:+ LF)
    = [stamp a +:+ " "; " " +:+ stamp b +:+ LF] /\
  strptime (Str.strip (stamp a +:+ " ")) DEFAULT_FORMAT
    = Ok (mk_datetime ORDINAL_1900 (hour a) (minute a) (second a) (microsecond a)) /\
  strptime (Str.strip (" " +:+ stamp b +:+ LF)) DEFAULT_FORMAT
    = Ok (mk_datetime ORDINAL_1900 (hour b) (minute b) (second b) (microsecond b)).
Proof.
  intros Ha Hb. split; [|split].
  - apply split_canonical; apply dashless_stamp.
  - rewrite strip_stamp_left. now apply strptime_stamp.
  - rewrite strip_stamp_right. now apply strptime_stamp.
Qed.

(** X6.  Under the default format a rewritten line reads back as what
    was meant: it splits into two parts again, they parse, each to the
    original time of day plus the offset modulo 24 hours, and the
    duration from start to end is the same as before, modulo 24 hours. *)
Theorem written_line_reads_back line d out p1 p2 ts1 ts2 :
  increment_line line d DEFAULT_FORMAT = Ok out ->
  Str.split RANGE_MARKER line = [p1; p2] ->
  strptime (Str.strip p1) DEFAULT_FORMAT = Ok ts1 ->
  strptime (Str.strip p2) DEFAULT_FORMAT = Ok ts2 ->
  exists q1 q2 us1 us2,
    Str.split RANGE_MARKER out = [q1; q2] /\
    strptime (Str.strip q1) DEFAULT_FORMAT = Ok us1 /\
    strptime (Str.strip q2) DEFAULT_FORMAT = Ok us2 /\
    time_of_day us1 = (time_of_day ts1 + 1000 * d) mod DAY /\
    time_of_day us2 = (time_of_day ts2 + 1000 * d) mod DAY /\
    (time_of_day us2 - time_of_day us1) mod DAY
    = (time_of_day ts2 - time_of_day ts1) mod DAY.
Proof.
  intros (p1' & p2' & ts1' & ts2' & Hsplit' & H1' & H2' & ->)%increment_line_default_Ok
         Hsplit H1 H2.
  rewrite Hsplit in Hsplit'. injection Hsplit' as <- <-.
  assert (ts1' = ts1) as -> by congruence.
  assert (ts2' = ts2) as -> by congruence.
  destruct (parse_canonical (wrapped ts1 d) (wrapped ts2 d))
    as (Hs & Hq1 & Hq2); try apply well_formed_wrapped.
  eexists _, _, _, _. split; [exact Hs|]. split; [exact Hq1|]. split; [exact Hq2|].
  change (time_of_day (mk_datetime ORDINAL_1900 (hour (wrapped ts1 d))
            (minute (wrapped ts1 d)) (second (wrapped ts1 d))
            (microsecond (wrapped ts1 d))))
    with (time_of_day (wrapped ts1 d)).
  change (time_of_day (mk_datetime ORDINAL_1900 (hour (wrapped ts2 d))
            (minute (wrapped ts2 d)) (second (wrapped ts2 d))
            (microsecond (wrapped ts2 d))))
    with (time_of_day (wrapped ts2 d)).
  rewrite !time_of_day_wrapped. split; [reflexivity|]. split; [reflexivity|].
  unfold DAY. Z.to_euclidean_division_equations. lia.
Qed.

Lemma written_line_reads_back_witness :
  exists q1 q2 us1 us2,
    Str.split RANGE_MARKER ("00:00:01,000000 --> 00:00:03,500000" +:+ LF) = [q1; q2] /\
    strptime (Str.strip q1) DEFAULT_FORMAT = Ok us1 /\
    strptime (Str.strip q2) DEFAULT_FORMAT = Ok us2 /\
    time_of_day us1
      = (time_of_day (mk_datetime ORDINAL_1900 23 59 59 0) + 1000 * 2000) mod DAY /\
    time_of_day us2
      = (time_of_day (mk_datetime ORDINAL_1900 0 0 1 500000) + 1000 * 2000) mod DAY /\
    (time_of_day us2 - time_of_day us1) mod DAY
    = (time_of_day (mk_datetime ORDINAL_1900 0 0 1 500000)
       - time_of_day (mk_datetime ORDINAL_1900 23 59 59 0)) mod DAY.
Proof.
  apply (written_line_reads_back ("23:59:59,000 --> 00:00:01,500" +:+ LF) 2000
           ("00:00:01,000000 --> 00:00:03,500000" +:+ LF)
           "23:59:59,000 " (" 00:00:01,500" +:+ LF));
    vm_compute; reflexivity.
Defined.

(** ** Shifting twice *)

Lemma increment_line_compose line d1 d2 out1 :
  increment_line line d1 DEFAULT_FORMAT = Ok out1 ->
  MIN_OFFSET <= d2 <= MAX_OFFSET ->
  MIN_OFFSET <= d1 + d2 <= MAX_OFFSET ->
  exists out2,
    increment_line out1 d2 DEFAULT_FORMAT = Ok out2 /\
    increment_line line (d1 + d2) DEFAULT_FORMAT = Ok out2.
Proof.
  intros (p1 & p2 & ts1 & ts2 & Hsplit & H1 & H2 & ->)%increment_line_default_Ok
         Hd2 Hsum.
  eexists. split.
  - apply increment_line_canonical; try apply well_formed_wrapped. assumption.
  - rewrite (increment_line_wraps line (d1 + d2) DEFAULT_FORMAT p1 p2 ts1 ts2)
      by assumption.
    rewrite !strftime_default. cbn [mbind result_bind].
    rewrite !stamp_wrapped, !time_of_day_wrapped.
    assert (Hmod : forall t,
      (t + 1000 * (d1 + d2)) mod DAY = ((t + 1000 * d1) mod DAY + 1000 * d2) mod DAY).
    { intros t. unfold DAY. Z.to_euclidean_division_equations. lia. }
    now rewrite !Hmod.
Qed.

(** X7.  Under the default format shifts add up: shifting a line by [d1]
    and the result by [d2] gives exactly the line that one shift by
    [d1 + d2] gives, provided [d2] and [d1 + d2] keep the dates in
    range.  With [d2 = - d1] this is the unshifted line as the program
    writes it. *)
Theorem shifts_add_up line d1 d2 out1 :
  increment_line line d1 DEFAULT_FORMAT = Ok out1 ->
  MIN_OFFSET <= d2 <= MAX_OFFSET ->
  MIN_OFFSET <= d1 + d2 <= MAX_OFFSET ->
  exists out2,
    increment_line out1 d2 DEFAULT_FORMAT = Ok out2 /\
    increment_line line (d1 + d2) DEFAULT_FORMAT = Ok out2.
Proof. apply increment_line_compose. Qed.

Lemma shifts_add_up_witness :
  exists out2,
    increment_line ("00:00:02,500000 --> 00:00:05,000000" +:+ LF) (-3000)
      DEFAULT_FORMAT = Ok out2 /\
    increment_line ("00:00:01,000 --> 00:00:03,500" +:+ LF) (1500 + -3000)
      DEFAULT_FORMAT = Ok out2.
Proof.
  apply (shifts_add_up ("00:00:01,000 --> 00:00:03,500" +:+ LF) 1500 (-3000)).
  - vm_compute. reflexivity.
  - vm_compute. split; discriminate.
  - vm_compute. split; discriminate.
Defined.

Lemma appended_compose l d1 d2 l1 :
  appended l d1 DEFAULT_FORMAT = Ok l1 ->
  MIN_OFFSET <= d2 <= MAX_OFFSET ->
  MIN_OFFSET <= d1 + d2 <= MAX_OFFSET ->
  exists l2,
    appended l1 d2 DEFAULT_FORMAT = Ok l2 /\
    appended l (d1 + d2) DEFAULT_FORMAT = Ok l2.
Proof.
  intros Hl Hd2 Hsum.
  destruct (Str.contains RANGE_MARKER l) eqn:Hm.
  - rewrite appended_range in Hl by assumption.
    assert (Hm1 : Str.contains RANGE_MARKER l1 = true).
    { apply increment_line_Ok in Hl
        as (p1 & p2 & ts1 & ts2 & offset & t1 & t2 & new1 & new2 &
            _ & _ & _ & _ & _ & _ & _ & _ & ->).
      apply contains_marker_joined. }
    rewrite (appended_range l1), (appended_range l) by assumption.
    now apply increment_line_compose.
  - rewrite appended_plain in Hl by assumption. injection Hl as <-.
    exists l. now rewrite !appended_plain.
Qed.

Lemma Forall2_appended_compose d1 d2 (f lines1 : list string) :
  Forall2 (fun l l' => appended l d1 DEFAULT_FORMAT = Ok l') f lines1 ->
  MIN_OFFSET <= d2 <= MAX_OFFSET ->
  MIN_OFFSET <= d1 + d2 <= MAX_OFFSET ->
  exists lines2,
    Forall2 (fun l l' => appended l d2 DEFAULT_FORMAT = Ok l') lines1 lines2 /\
    Forall2 (fun l l' => appended l (d1 + d2) DEFAULT_FORMAT = Ok l') f lines2.
Proof.
  intros Hall Hd2 Hsum.
  induction Hall as [|l l1 f lines1 Hl Hall (lines2 & IH1 & IH2)].
  - exists []. split; constructor.
  - destruct (appended_compose l d1 d2 l1 Hl Hd2 Hsum) as (l2 & H1 & H2).
    exists (l2 :: lines2). split; constructor; assumption.
Qed.

(** X8.  Under the default format two runs add up like one: running the
    program on a file with offset [d1] and then on its output with offset
    [d2] writes exactly the file that a single run with offset [d1 + d2]
    on the original writes, provided [d2] and [d1 + d2] keep the dates in
    range.  In particular a run with [- d1] on the output undoes the
    shift up to the program's own way of writing timestamps. *)
Theorem two_runs_add_up srt mid out d1 d2 (fs fs1 : gmap string string) :
  generate_new_srt_file srt mid d1 DEFAULT_FORMAT fs = (Ok (), fs1) ->
  MIN_OFFSET <= d2 <= MAX_OFFSET ->
  MIN_OFFSET <= d1 + d2 <= MAX_OFFSET ->
  exists written,
    generate_new_srt_file mid out d2 DEFAULT_FORMAT fs1
      = (Ok (), <[out := written]> fs1) /\
    generate_new_srt_file srt out (d1 + d2) DEFAULT_FORMAT fs
      = (Ok (), <[out := written]> fs).
Proof.
  intros (content & lines1 & Hfs & Hall & ->)%generate_Ok Hd2 Hsum.
  destruct (Forall2_appended_compose d1 d2 _ _ Hall Hd2 Hsum)
    as (lines2 & Hall2 & Hall12).
  assert (Hback : readlines (write_lines lines1) = lines1).
  { apply readlines_write_lines.
    eapply transform_default_proper; [exact Hall | apply readlines_proper]. }
  exists (write_lines lines2). split; apply generate_Ok.
  - exists (write_lines lines1), lines2. rewrite lookup_insert_eq, Hback. auto.
  - exists content, lines2. auto.
Qed.

Lemma two_runs_add_up_witness :
  exists written,
    generate_new_srt_file "mid.srt" "out.srt" (-1500) DEFAULT_FORMAT
      (snd (generate_new_srt_file "in.srt" "mid.srt" 1500 DEFAULT_FORMAT sample_fs))
      = (Ok (), <["out.srt" := written]>
                  (snd (generate_new_srt_file "in.srt" "mid.srt" 1500
                          DEFAULT_FORMAT sample_fs))) /\
    generate_new_srt_file "in.srt" "out.srt" (1500 + -1500) DEFAULT_FORMAT sample_fs
      = (Ok (), <["out.srt" := written]> sample_fs).
Proof.
  apply (two_runs_add_up "in.srt" "mid.srt" "out.srt" 1500 (-1500) sample_fs).
  - vm_compute. reflexivity.
  - vm_compute. split; discriminate.
  - vm_compute. split; discriminate.
Defined.

(** ** Whitespace around the timestamps *)

Lemma space_not_dash c : Str.isspace c = true -> Ascii.eqb "-" c = false.
Proof.
  intros H. destruct (Ascii.eqb_spec "-" c) as [<-|]; [discriminate H | reflexivity].
Qed.

Lemma dashless_spaces ws : all_in Str.isspace ws = true -> dashless ws = true.
Proof.
  unfold dashless. induction ws as [|c ws IH]; [reflexivity|].
  cbn [all_in]. intros [Hc Hws]%andb_true_iff.
  now rewrite (space_not_dash c Hc), IH.
Qed.

Lemma lstrip_spaces ws s :
  all_in Str.isspace ws = true -> Str.lstrip (ws +:+ s) = Str.lstrip s.
Proof.
  induction ws as [|c ws IH]; [reflexivity|].
  cbn [all_in]. intros [Hc Hws]%andb_true_iff.
  rewrite append_cons. cbn [Str.lstrip]. rewrite Hc. auto.
Qed.

Lemma rstrip_spaces ws : forall s,
  all_in Str.isspace ws = true -> Str.rstrip (s +:+ ws) = Str.rstrip s.
Proof.
  induction ws as [|c ws IH]; intros s.
  - now rewrite append_nil_r.
  - cbn [all_in]. intros [Hc Hws]%andb_true_iff.
    rewrite <- (append_single c ws), <- append_assoc, IH by assumption.
    now apply rstrip_snoc_space.
Qed.

Lemma strip_spaces ws1 a ws2 :
  all_in Str.isspace ws1 = true -> all_in Str.isspace ws2 = true ->
  Str.strip (ws1 +:+ a +:+ ws2) = Str.strip a.
Proof.
  intros H1 H2. unfold Str.strip. rewrite lstrip_spaces by assumption.
  induction a as [|c a IH].
  - rewrite append_nil_l, <- (append_nil_r ws2), lstrip_spaces by assumption.
    reflexivity.
  - rewrite append_cons. cbn [Str.lstrip]. destruct (Str.isspace c); [exact IH|].
    rewrite <- append_cons. now apply rstrip_spaces.
Qed.

Lemma split_around_marker a b :
  dashless a = true -> dashless b = true ->
  Str.split RANGE_MARKER (a +:+ RANGE_MARKER +:+ b) = [a; b].
Proof.
  intros Ha Hb. rewrite split_dashless_prefix by assumption.
  rewrite split_marker_head, split_dashless by assumption.
  now rewrite append_nil_r.
Qed.

(** X9.  Whitespace before, between and after the two timestamps of a
    range line is ignored: a line with any amount of it around
    hyphen-free timestamp texts is transformed exactly as the line
    without it, under every format and offset. *)
Theorem surrounding_whitespace_ignored ws1 ws2 ws3 ws4 a b offset_ms fmt :
  all_in Str.isspace ws1 = true -> all_in Str.isspace ws2 = true ->
  all_in Str.isspace ws3 = true -> all_in Str.isspace ws4 = true ->
  dashless a = true -> dashless b = true ->
  increment_line ((ws1 +:+ a +:+ ws2) +:+ RANGE_MARKER +:+ (ws3 +:+ b +:+ ws4))
                 offset_ms fmt
  = increment_line (a +:+ RANGE_MARKER +:+ b) offset_ms fmt.
Proof.
  intros H1 H2 H3 H4 Ha Hb. unfold increment_line.
  rewrite !split_around_marker;
    rewrite ?dashless_app, ?Ha, ?Hb, ?dashless_spaces; try reflexivity; try assumption.
  cbn [unpack2]. now rewrite !strip_spaces by assumption.
Qed.

Lemma surrounding_whitespace_ignored_witness :
  increment_line (("  " +:+ "00:00:01,000" +:+ "") +:+ RANGE_MARKER
                  +:+ ("   " +:+ "00:00:03,500" +:+ (" " +:+ LF))) 1500 DEFAULT_FORMAT
  = increment_line ("00:00:01,000" +:+ RANGE_MARKER +:+ "00:00:03,500") 1500
      DEFAULT_FORMAT.
Proof.
  apply (surrounding_whitespace_ignored "  " "" "   " (" " +:+ LF)
           "00:00:01,000" "00:00:03,500" 1500 DEFAULT_FORMAT);
    vm_compute; reflexivity.
Defined.

(** ** The written file, line by line *)

(** X10.  Under the default format the file that a successful run writes
    has, when read line by line, exactly as many lines as the input, and
    its i-th line is what the loop appends for the i-th input line. *)
Theorem output_file_line_by_line srt out offset_ms
    (fs fs' : gmap string string) content :
  fs !! srt = Some content ->
  generate_new_srt_file srt out offset_ms DEFAULT_FORMAT fs = (Ok (), fs') ->
  exists written,
    fs' !! out = Some written /\
    length (readlines written) = length (readlines content) /\
    forall i line, readlines content !! i = Some line ->
      exists new_line,
        readlines written !! i = Some new_line /\
        appended line offset_ms DEFAULT_FORMAT = Ok new_line.
Proof.
  intros Hfs (content' & lines & Hfs' & Hall & ->)%generate_Ok.
  assert (content' = content) as -> by congruence.
  exists (write_lines lines). split; [apply lookup_insert_eq|].
  rewrite readlines_write_lines
    by (eapply transform_default_proper; [exact Hall | apply readlines_proper]).
  split.
  - symmetry. eapply Forall2_length, Hall.
  - intros i line Hi. eapply Forall2_step_lookup; eassumption.
Qed.

Lemma output_file_line_by_line_witness :
  exists written,
    snd (generate_new_srt_file "in.srt" "out.srt" 1500 DEFAULT_FORMAT sample_fs)
      !! "out.srt" = Some written /\
    length (readlines written) = length (readlines sample_srt) /\
    forall i line, readlines sample_srt !! i = Some line ->
      exists new_line,
        readlines written !! i = Some new_line /\
        appended line 1500 DEFAULT_FORMAT = Ok new_line.
Proof.
  apply (output_file_line_by_line "in.srt" "out.srt" 1500 sample_fs
           (snd (generate_new_srt_file "in.srt" "out.srt" 1500 DEFAULT_FORMAT
                   sample_fs)) sample_srt);
    vm_compute; reflexivity.
Defined.

(** ** Which failure is reported *)

(** X11.  The run stops at the first line on which [increment_line]
    raises and reports that line's exception: whatever the lines after
    it are, valid or not, the outcome is the same and nothing is
    written. *)
Theorem first_bad_line_decides srt out offset_ms fmt
    (fs1 fs2 : gmap string string) content1 content2 i line e :
  fs1 !! srt = Some content1 ->
  fs2 !! srt = Some content2 ->
  (forall j, (j <= i)%nat -> readlines content2 !! j = readlines content1 !! j) ->
  readlines content1 !! i = Some line ->
  Str.contains RANGE_MARKER line = true ->
  increment_line line offset_ms fmt = Raise e ->
  (forall j l, (j < i)%nat -> readlines content1 !! j = Some l ->
     exists l', appended l offset_ms fmt = Ok l') ->
  generate_new_srt_file srt out offset_ms fmt fs1 = (Raise e, fs1) /\
  generate_new_srt_file srt out offset_ms fmt fs2 = (Raise e, fs2).
Proof.
  intros Hfs1 Hfs2 Hsame Hi Hm He Hbefore.
  rewrite <- (appended_range _ _ _ Hm) in He. split.
  - apply (generate_first_failure _ _ _ _ fs1 content1 i line e); assumption.
  - apply (generate_first_failure _ _ _ _ fs2 content2 i line e); try assumption.
    + now rewrite Hsame.
    + intros j l Hj Hl. rewrite Hsame in Hl by lia. eauto.
Qed.

Lemma first_bad_line_decides_witness :
  generate_new_srt_file "in.srt" "out.srt" 0 DEFAULT_FORMAT
    {[ "in.srt" := "bad --> 0:0:1,0" +:+ LF +:+ "fine" +:+ LF ]}
  = (Raise (NoMatch "bad" DEFAULT_FORMAT),
     {[ "in.srt" := "bad --> 0:0:1,0" +:+ LF +:+ "fine" +:+ LF ]}) /\
  generate_new_srt_file "in.srt" "out.srt" 0 DEFAULT_FORMAT
    {[ "in.srt" := "bad --> 0:0:1,0" +:+ LF +:+ "0:0:1,0 --> 0:0:2,0 --> x" ]}
  = (Raise (NoMatch "bad" DEFAULT_FORMAT),
     {[ "in.srt" := "bad --> 0:0:1,0" +:+ LF +:+ "0:0:1,0 --> 0:0:2,0 --> x" ]}).
Proof.
  apply (first_bad_line_decides "in.srt" "out.srt" 0 DEFAULT_FORMAT
           {[ "in.srt" := "bad --> 0:0:1,0" +:+ LF +:+ "fine" +:+ LF ]}
           {[ "in.srt" := "bad --> 0:0:1,0" +:+ LF +:+ "0:0:1,0 --> 0:0:2,0 --> x" ]}
           ("bad --> 0:0:1,0" +:+ LF +:+ "fine" +:+ LF)
           ("bad --> 0:0:1,0" +:+ LF +:+ "0:0:1,0 --> 0:0:2,0 --> x")
           0%nat ("bad --> 0:0:1,0" +:+ LF)).
  - vm_compute. reflexivity.
  - vm_compute. reflexivity.
  - intros j Hj. assert (j = 0%nat) as -> by lia. vm_compute. reflexivity.
  - vm_compute. reflexivity.
  - vm_compute. reflexivity.
  - vm_compute. reflexivity.
  - intros j l Hj. lia.
Defined.

(** ** More than one marker *)

(** X12.  A line in which the marker occurs more than once is never
    rewritten: whatever the format and the offset, [increment_line]
    raises, and it raises before the offset is applied, so never with an
    overflow of the date arithmetic. *)
Theorem second_marker_is_refused line offset_ms fmt p1 p2 p3 rest :
  Str.split RANGE_MARKER line = p1 :: p2 :: p3 :: rest ->
  exists e,
    increment_line line offset_ms fmt = Raise e /\
    e <> OverflowError /\
    (is_parse_error fmt e \/ e = PatternError \/ e = OutsideFragment fmt).
Proof.
  intros Hsplit. unfold increment_line, unpack2. rewrite Hsplit.
  assert (Hkind : forall x e, strptime (Str.strip x) fmt = Raise e ->
            e <> OverflowError /\
            (is_parse_error fmt e \/ e = PatternError \/ e = OutsideFragment fmt)).
  { intros x e He. unfold is_parse_error.
    destruct (strptime_Raise _ _ _ He) as [Hc|[_ [->|[[r ->]| ->]]]];
      try (split; [discriminate | eauto 10]).
    apply compile_Raise in Hc as [->|[->|[->| ->]]]; split; try discriminate; auto 10. }
  destruct (strptime (Str.strip p1) fmt) eqn:E1; cbn [mbind result_bind];
    [|eexists; split; [reflexivity | eauto]].
  destruct (strptime (Str.strip p2) fmt) eqn:E2; cbn [mbind result_bind];
    [|eexists; split; [reflexivity | eauto]].
  destruct (strptime (Str.strip p3) fmt) eqn:E3; cbn [mbind result_bind];
    [|eexists; split; [reflexivity | eauto]].
  exists TooManyValues. split; [reflexivity|]. split; [discriminate|].
  left. unfold is_parse_error. auto.
Qed.

Lemma second_marker_is_refused_witness :
  exists e,
    increment_line "0:0:1,0 --> 0:0:2,0 --> 0:0:3,0" 300000000000000 DEFAULT_FORMAT
      = Raise e /\
    e <> OverflowError /\
    (is_parse_error DEFAULT_FORMAT e \/ e = PatternError \/
     e = OutsideFragment DEFAULT_FORMAT).
Proof.
  apply (second_marker_is_refused "0:0:1,0 --> 0:0:2,0 --> 0:0:3,0" 300000000000000
           DEFAULT_FORMAT "0:0:1,0 " " 0:0:2,0 " " 0:0:3,0" []).
  vm_compute. reflexivity.
Defined.
